(** * Code standardizer: a shallow embedding of [code_standardizer.py]

    The program is glue code around three external command-line tools, a
    hosted language model and the local working directory.  The embedding
    has two layers:

    - the pure string functions the program relies on ([str.splitlines],
      [str.strip], the [in] operator, [str.replace]) and the score
      extractor built on them;
    - the effectful functions, written in a state-and-exception monad over
      an explicit world (files, spawned commands, prompts sent, UI log),
      with the external tools and the model taken as oracles. *)

From Stdlib Require Import String Ascii List ZArith NArith Lia Bool.
From Stdlib Require Strings.Byte.
From stdpp Require Import gmap list.
Import ListNotations.

Local Open Scope N_scope.
Local Open Scope list_scope.

(** ** Python strings *)

(** A Python [str] is a sequence of Unicode code points. *)
Abbreviation char := N.
Abbreviation str := (list N).

(** ASCII literals of the source, as code points. *)
Definition py (s : string) : str :=
  map N_of_ascii (list_ascii_of_string s).

Definition NL : N := 10.
Definition DQUOTE : N := 34.

(** [s.startswith(p)] *)
Fixpoint startswith (p s : str) : bool :=
  match p, s with
  | [], _ => true
  | _ :: _, [] => false
  | a :: p', b :: s' => (a =? b) && startswith p' s'
  end.

(** [sub in s] *)
Fixpoint str_contains (sub s : str) : bool :=
  startswith sub s ||
  match s with
  | [] => false
  | _ :: s' => str_contains sub s'
  end.

(** The line boundaries of [str.splitlines]: LF, VT, FF, CR, FS, GS, RS,
    NEL, LS and PS. *)
Definition is_linebreak (c : char) : bool :=
  (c =? 10) || (c =? 11) || (c =? 12) || (c =? 13) ||
  (c =? 28) || (c =? 29) || (c =? 30) || (c =? 133) ||
  (c =? 8232) || (c =? 8233).

(** [s.splitlines()]: [cur] is the line being read, last character first.
    CR LF counts as one boundary; a boundary at the very end opens no line. *)
Fixpoint splitlines_from (cur : str) (s : str) : list str :=
  match s with
  | [] => match cur with [] => [] | _ :: _ => [rev cur] end
  | c :: s' =>
      if is_linebreak c then
        match c, s' with
        | 13, 10 :: s'' => rev cur :: splitlines_from [] s''
        | _, _ => rev cur :: splitlines_from [] s'
        end
      else splitlines_from (c :: cur) s'
  end.

Definition str_splitlines (s : str) : list str := splitlines_from [] s.

(** [c.isspace()] *)
Definition isspace (c : char) : bool :=
  ((9 <=? c) && (c <=? 13)) || ((28 <=? c) && (c <=? 32)) ||
  (c =? 133) || (c =? 160) || (c =? 5760) ||
  ((8192 <=? c) && (c <=? 8202)) || (c =? 8232) || (c =? 8233) ||
  (c =? 8239) || (c =? 8287) || (c =? 12288).

Fixpoint str_lstrip (s : str) : str :=
  match s with
  | [] => []
  | c :: s' => if isspace c then str_lstrip s' else s
  end.

Definition str_rstrip (s : str) : str := rev (str_lstrip (rev s)).

(** [s.strip()] *)
Definition str_strip (s : str) : str := str_rstrip (str_lstrip s).

(** [s.replace(old, new)] for a non-empty [old]: scan from the left; at a
    match emit [new] and resume after the matched text ([skip] counts the
    matched characters still to be passed over). *)
Fixpoint replace_from (old new : str) (skip : nat) (s : str) : str :=
  match s with
  | [] => []
  | c :: s' =>
      match skip with
      | S k => replace_from old new k s'
      | O =>
          if startswith old s
          then new ++ replace_from old new (length old - 1) s'
          else c :: replace_from old new 0 s'
      end
  end.

(** [s.replace(old, new)]; an empty [old] matches before every character
    and at the end. *)
Definition str_replace (old new s : str) : str :=
  match old with
  | [] => new ++ flat_map (fun c => c :: new) s
  | _ :: _ => replace_from old new 0 s
  end.

(** ** Score extractor *)

Definition MARKER : str := py "Your code has been rated at".
Definition FALLBACK : str := py "Pylint score not found.".

(** The [for] loop of [extract_pylint_score] over the lines. *)
Fixpoint first_rated_line (lines : list str) : str :=
  match lines with
  | [] => FALLBACK
  | line :: rest =>
      if str_contains MARKER line then str_strip line
      else first_rated_line rest
  end.

Definition extract_pylint_score (lint_report : str) : str :=
  first_rated_line (str_splitlines lint_report).

(** ** Fence markers *)

Definition BACKTICK : N := 96.
Definition FENCE : str := py "```".
Definition FENCE_PYTHON : str := py "```python".
Definition FENCE_R : str := py "```r".
Definition SPACE : str := py " ".

(** The two chained [replace] calls of the standardize functions. *)
Definition strip_fences (tagged : str) (response : str) : str :=
  str_replace FENCE SPACE (str_replace tagged SPACE response).

(** Number of backticks a string starts with (used to reason about
    [replace]). *)
Fixpoint ticks (s : str) : nat :=
  match s with
  | [] => 0%nat
  | c :: s' => if 96 =? c then S (ticks s') else 0%nat
  end.

(** ** The world around the program *)

Abbreviation bytes := (list Byte.byte).

(** The exceptions the program can meet.  [ClientError] stands for any
    other instance of Python's [Exception] class (what the model client
    raises on network, quota or safety failures); [Interrupt] for a
    [BaseException] outside [Exception] ([KeyboardInterrupt],
    [SystemExit]). *)
Inductive exception :=
| FileNotFoundError (filename : str)
| CalledProcessError (returncode : Z) (cmd : list str)
| UnicodeDecodeError
| UnicodeEncodeError
| ClientError (text : str)
| Interrupt (text : str).

(** [isinstance(e, Exception)] *)
Definition is_Exception (e : exception) : bool :=
  match e with
  | Interrupt _ => false
  | _ => true
  end.

Inductive outcome (A : Type) :=
| Ret (a : A)
| Raise (e : exception).
Arguments Ret {A} a.
Arguments Raise {A} e.

(** What spawning a command gives: no such executable, or a finished
    process with its exit status and output streams. *)
Inductive exec_result :=
| NotFound
| Completed (returncode : Z) (stdout stderr : str).

Record CompletedProcess := {
  returncode : Z;
  stdout : str;
  stderr : str
}.

(** What the hosted model gives for a prompt. *)
Inductive llm_result :=
| Generated (text : str)
| Failed (e : exception).

(** Streamlit calls, in the order they are rendered. *)
Inductive ui_event :=
| Title (text : str)
| Radio (label : str) (options : list str)
| FileUploader (label : str) (types : list str)
| Button (label : str)
| Write (text : str)
| Error (text : str)
| Subheader (text : str)
| Text (text : str)
| TextArea (label value : str)
| DownloadButton (label data file_name mime : str).

(** The host machine: the working directory (path to content) and
    everything else the external tools and the model service depend on
    or change (installed packages, service state), kept abstract. *)
Record host (E : Type) := Host {
  files : gmap str bytes;
  env : E
}.
Arguments Host {E} files env.
Arguments files {E} h.
Arguments env {E} h.

(** The program's world: the host plus the traces of what the program did:
    UI calls, commands it spawned, paths it opened for writing, prompts it
    sent to the model. *)
Record world (E : Type) := World {
  machine : host E;
  ui : list ui_event;
  spawned : list (list str);
  written : list str;
  prompts : list str
}.
Arguments World {E} machine ui spawned written prompts.
Arguments machine {E} w.
Arguments ui {E} w.
Arguments spawned {E} w.
Arguments written {E} w.
Arguments prompts {E} w.

Definition set_machine {E} (h : host E) (w : world E) : world E :=
  World h (ui w) (spawned w) (written w) (prompts w).
Definition log_ui {E} (ev : ui_event) (w : world E) : world E :=
  World (machine w) (ui w ++ [ev]) (spawned w) (written w) (prompts w).
Definition log_spawn {E} (args : list str) (w : world E) : world E :=
  World (machine w) (ui w) (spawned w ++ [args]) (written w) (prompts w).
Definition log_write {E} (path : str) (w : world E) : world E :=
  World (machine w) (ui w) (spawned w) (written w ++ [path]) (prompts w).
Definition log_prompt {E} (prompt : str) (w : world E) : world E :=
  World (machine w) (ui w) (spawned w) (written w) (prompts w ++ [prompt]).
Definition store {E} (path : str) (data : bytes) (w : world E) : world E :=
  set_machine (Host (<[path := data]> (files (machine w))) (env (machine w))) w.

(** ** State and exception monad *)

Definition M (E A : Type) : Type := world E -> outcome A * world E.

Definition ret {E A} (a : A) : M E A := fun w => (Ret a, w).

Definition raise {E A} (e : exception) : M E A := fun w => (Raise e, w).

Definition bind {E A B} (m : M E A) (k : A -> M E B) : M E B :=
  fun w =>
    match m w with
    | (Ret a, w') => k a w'
    | (Raise e, w') => (Raise e, w')
    end.

(** [try: body / except ...: handler]; the handler says which exceptions
    the [except] clause matches. *)
Definition try_except {E A} (body : M E A)
    (handler : exception -> option (M E A)) : M E A :=
  fun w =>
    match body w with
    | (Ret a, w') => (Ret a, w')
    | (Raise e, w') =>
        match handler e with
        | Some h => h w'
        | None => (Raise e, w')
        end
    end.

Declare Scope py_scope.
Delimit Scope py_scope with py.
Notation "'let*' x ':=' m 'in' k" := (bind m (fun x => k))
  (at level 10, x name, m at level 100, k at level 200) : py_scope.
Notation "m ';;' k" := (bind m (fun _ => k))
  (at level 100, k at level 200, right associativity) : py_scope.

(** ** User choices *)

Inductive action := Standardize | Translate.
Inductive language := Python | R.
Inductive standardizer := Pylint | Black | lintr.

Definition language_label (l : language) : str :=
  match l with
  | Python => py "Python"
  | R => py "R"
  end.

(** What the user entered in the form for one run of [main]. *)
Record inputs := {
  action_choice : action;
  language_choice : language;
  standardizer_choice : standardizer;
  uploaded_file : option (str * bytes);
  translation_code : str;
  button : bool
}.

(** The branches of [main] that handle a language and standardizer pair. *)
Definition handled (l : language) (s : standardizer) : bool :=
  match l, s with
  | Python, Pylint | Python, Black | R, lintr => true
  | _, _ => false
  end.

(** An empty line of a template. *)
Definition blank : string := EmptyString.

(** Lines of a literal joined by newlines. *)
Fixpoint py_lines (ls : list string) : str :=
  match ls with
  | [] => []
  | [l] => py l
  | l :: rest => py l ++ NL :: py_lines rest
  end.

Local Open Scope string_scope.
Local Open Scope list_scope.

(** ** A small concrete host

    One instance of the oracles, used to run the program on examples: a
    machine with a list of installed tools, a model service that is up or
    down, and a one-byte-per-character codec. *)

Fixpoint str_eqb (a b : str) : bool :=
  match a, b with
  | [], [] => true
  | x :: a', y :: b' => N.eqb x y && str_eqb a' b'
  | _, _ => false
  end.

Record demo_env := {
  installed : list str;
  model_up : bool
}.

Definition demo_has (tool : str) (h : host demo_env) : bool :=
  existsb (str_eqb tool) (installed (env h)).

Definition demo_install (tool : str) (h : host demo_env) : host demo_env :=
  Host (files h)
       {| installed := tool :: installed (env h); model_up := model_up (env h) |}.

Definition demo_sys_executable : str := py "python3".

Definition demo_report : str :=
  py_lines [
    "a.py:1:0: C0114: Missing module docstring (missing-module-docstring)";
    blank;
    "-----------------------------------";
    "Your code has been rated at 5.00/10";
    blank].

(** What the demo formatter does to a file: it ends it with a newline. *)
Definition demo_tidy (data : bytes) : bytes := data ++ [Byte.x0a].

Definition demo_exec (args : list str) (h : host demo_env)
    : exec_result * host demo_env :=
  match args with
  | [] => (NotFound, h)
  | prog :: rest =>
      if str_eqb prog demo_sys_executable then
        match rest with
        | [_; _; _; package] => (Completed 0 [] [], demo_install package h)
        | _ => (Completed 2 [] [], h)
        end
      else if negb (demo_has prog h) then (NotFound, h)
      else if str_eqb prog (py "pylint") then
        match rest with
        | [arg] =>
            if str_eqb arg (py "--version")
            then (Completed 0 (py "pylint 3.0.0") [], h)
            else (Completed 16 demo_report [], h)
        | _ => (Completed 32 [] [], h)
        end
      else if str_eqb prog (py "black") then
        match rest with
        | [arg] =>
            if str_eqb arg (py "--version")
            then (Completed 0 (py "black, 24.0.0") [], h)
            else
              match files h !! arg with
              | Some _ =>
                  (Completed 0 [] (py "reformatted"),
                   Host (alter demo_tidy arg (files h)) (env h))
              | None => (Completed 123 [] (py "No such file"), h)
              end
        | _ => (Completed 2 [] [], h)
        end
      else if str_eqb prog (py "Rscript") then
        match rest with
        | [_; expr] =>
            if str_eqb expr (py "library(lintr)") then
              if demo_has (py "lintr") h
              then (Completed 0 [] [], h)
              else (Completed 1 [] (py "there is no package called lintr"), h)
            else if str_eqb (firstn 16 expr) (py "install.packages") then
              (Completed 0 [] [], demo_install (py "lintr") h)
            else (Completed 0 (py "a.R:1:3: style: Use <-, not =, for assignment.") [], h)
        | _ => (Completed 2 [] [], h)
        end
      else (NotFound, h)
  end.

Definition demo_response : str :=
  py_lines ["```python"; "x = 1"; "```"].

Definition demo_llm (prompt : str) (e : demo_env) : llm_result * demo_env :=
  if model_up e
  then (Generated demo_response, e)
  else (Failed (ClientError (py "503 service unavailable")), e).

Definition demo_decode (data : bytes) : option str :=
  Some (map Byte.to_N data).

Definition demo_encode (text : str) : option bytes :=
  mapM Byte.of_N text.

Definition demo_exc_str (e : exception) : str :=
  match e with
  | FileNotFoundError f => py "No such file or directory: " ++ f
  | CalledProcessError _ _ => py "Command returned non-zero exit status"
  | UnicodeDecodeError => py "codec can't decode"
  | UnicodeEncodeError => py "codec can't encode"
  | ClientError text => text
  | Interrupt text => text
  end.

Definition demo_world (fs : gmap str bytes) (tools : list str) (up : bool)
    : world demo_env :=
  World (Host fs {| installed := tools; model_up := up |}) [] [] [] [].

(** Further oracles for examples: a machine where every command runs and
    exits with status 1, a machine with the interpreter alone and no
    network for its installer, a model that answers plain code, a model
    service that is down, and a codec that refuses bytes outside ASCII. *)

Definition failing_exec (args : list str) (h : host demo_env)
    : exec_result * host demo_env :=
  (Completed 1 [] (py "Traceback (most recent call last)"), h).

Definition offline_exec (args : list str) (h : host demo_env)
    : exec_result * host demo_env :=
  match args with
  | [] => (NotFound, h)
  | prog :: _ =>
      if str_eqb prog demo_sys_executable
      then (Completed 1 [] (py "No matching distribution found"), h)
      else (NotFound, h)
  end.

Definition plain_llm (prompt : str) (e : demo_env) : llm_result * demo_env :=
  (Generated (py "x = 1"), e).

Definition down_llm (prompt : str) (e : demo_env) : llm_result * demo_env :=
  (Failed (ClientError (py "503 service unavailable")), e).

Definition ascii_decode (data : bytes) : option str :=
  if forallb (fun b => N.ltb (Byte.to_N b) 128) data
  then Some (map Byte.to_N data)
  else None.

(** ** The program *)

Section Program.

(** The oracles: what spawning a command does to the host, what the model
    service answers, the text codec of [open] in text mode (locale
    encoding and newline translation), the interpreter's own path and its
    rendering of an exception by [str]. *)
Context {E : Type}.
Variable exec : list str -> host E -> exec_result * host E.
Variable llm : str -> E -> llm_result * E.
Variable decode : bytes -> option str.
Variable encode : str -> option bytes.
Variable sys_executable : str.
Variable exc_str : exception -> str.

Local Open Scope string_scope.
Local Open Scope list_scope.
Local Open Scope py_scope.

(** *** Primitives *)

(** A Streamlit call. *)
Definition st (ev : ui_event) : M E unit :=
  fun w => (Ret tt, log_ui ev w).

(** [subprocess.run(args, check=check)]: the attempt is logged, a missing
    executable raises [FileNotFoundError], and with [check] a non-zero
    exit status raises [CalledProcessError]. *)
Definition subprocess_run (args : list str) (check : bool)
    : M E CompletedProcess :=
  fun w =>
    let '(r, h) := exec args (machine w) in
    let w' := log_spawn args (set_machine h w) in
    match r with
    | NotFound => (Raise (FileNotFoundError (hd [] args)), w')
    | Completed rc out err =>
        if check && negb (rc =? 0)%Z
        then (Raise (CalledProcessError rc args), w')
        else (Ret {| returncode := rc; stdout := out; stderr := err |}, w')
    end.

(** [with open(path, 'wb') as f: f.write(data)] *)
Definition write_bytes (path : str) (data : bytes) : M E unit :=
  fun w => (Ret tt, log_write path (store path data w)).

(** [with open(path, 'w') as file: file.write(text)]: opening truncates
    the file before the text is encoded. *)
Definition write_text (path : str) (text : str) : M E unit :=
  fun w =>
    match encode text with
    | Some data => (Ret tt, log_write path (store path data w))
    | None => (Raise UnicodeEncodeError, log_write path (store path [] w))
    end.

(** [with open(path, 'r') as file: file.read()] *)
Definition read_text (path : str) : M E str :=
  fun w =>
    match files (machine w) !! path with
    | None => (Raise (FileNotFoundError path), w)
    | Some data =>
        match decode data with
        | Some text => (Ret text, w)
        | None => (Raise UnicodeDecodeError, w)
        end
    end.

(** The world after the model was asked [prompt] and its service moved
    to [e]. *)
Definition asked (prompt : str) (e : E) (w : world E) : world E :=
  log_prompt prompt (set_machine (Host (files (machine w)) e) w).

(** The body of the [try] in [call_gemini_llm]: build the model object,
    send the prompt, resolve the response and take its text. *)
Definition generate_content (prompt : str) : M E str :=
  fun w =>
    let '(r, e) := llm prompt (env (machine w)) in
    let w' := asked prompt e w in
    match r with
    | Generated text => (Ret text, w')
    | Failed exc => (Raise exc, w')
    end.

(** *** Tool availability checkers *)

Definition PYLINT_VERSION : list str := [py "pylint"; py "--version"].
Definition BLACK_VERSION : list str := [py "black"; py "--version"].
Definition LINTR_LIBRARY : list str :=
  [py "Rscript"; py "-e"; py "library(lintr)"].

Definition pip_install (package : string) : list str :=
  [sys_executable; py "-m"; py "pip"; py "install"; py package].
Definition LINTR_INSTALL : list str :=
  [py "Rscript"; py "-e";
   py "install.packages(" ++ DQUOTE :: py "lintr" ++ DQUOTE :: py ")"].

Definition ensure_pylint_installed : M E unit :=
  try_except
    (subprocess_run PYLINT_VERSION true;; ret tt)
    (fun e =>
       match e with
       | FileNotFoundError _ =>
           Some (st (Write (py "Pylint is not installed. Installing it now..."));;
                 subprocess_run (pip_install "pylint") false;;
                 ret tt)
       | _ => None
       end).

Definition ensure_black_installed : M E unit :=
  try_except
    (subprocess_run BLACK_VERSION true;; ret tt)
    (fun e =>
       match e with
       | FileNotFoundError _ =>
           Some (st (Write (py "Black is not installed. Installing it now..."));;
                 subprocess_run (pip_install "black") false;;
                 ret tt)
       | _ => None
       end).

Definition ensure_lintr_installed : M E unit :=
  try_except
    (subprocess_run LINTR_LIBRARY true;; ret tt)
    (fun e =>
       match e with
       | CalledProcessError _ _ =>
           Some (st (Write (py "lintr is not installed in R. Installing it now..."));;
                 subprocess_run LINTR_INSTALL false;;
                 ret tt)
       | _ => None
       end).

(** *** Analyzer and formatter adapters *)

Definition pylint_command (file_path : str) : list str :=
  [py "pylint"; file_path].
Definition black_command (file_path : str) : list str :=
  [py "black"; file_path].
Definition lintr_command (file_path : str) : list str :=
  [py "Rscript"; py "-e";
   py "lintr::lint(" ++ DQUOTE :: file_path ++ DQUOTE :: py ")"].

Definition analyze_code_pylint (file_path : str) : M E str :=
  ensure_pylint_installed;;
  let* result := subprocess_run (pylint_command file_path) false in
  ret (stdout result).

Definition format_code_black (file_path : str) : M E str :=
  ensure_black_installed;;
  subprocess_run (black_command file_path) false;;
  let* formatted_code := read_text file_path in
  ret formatted_code.

Definition analyze_code_lintr (file_path : str) : M E str :=
  ensure_lintr_installed;;
  let* result := subprocess_run (lintr_command file_path) false in
  ret (stdout result).

(** *** Model client *)

Definition call_gemini_llm (prompt : str) : M E str :=
  try_except
    (generate_content prompt)
    (fun e =>
       if is_Exception e
       then Some (st (Error (py "Error calling Gemini LLM: " ++ exc_str e));;
                  ret [])
       else None).

(** *** Prompt templates *)

Definition pylint_prompt (code lint_report : str) : str :=
  py_lines [
    blank;
    "    Given the following Python code and the Pylint report, improve the code to address all issues and achieve a Pylint score greater than 8.";
    "    Include only the necessary docstrings and avoid redundant explanations.";
    blank;
    "    Original Code:";
    "    "]
  ++ code
  ++ py_lines [blank; blank; "    Pylint Report:"; "    "]
  ++ lint_report
  ++ py_lines [blank; blank; "    Improved Code:"; "    "].

Definition black_prompt (code : str) : str :=
  py_lines [
    blank;
    "    Given the following Python code, format it according to the Black code style.";
    blank;
    "    Original Code:";
    "    "]
  ++ code
  ++ py_lines [blank; blank; "    Improved Code:"; "    "].

(** The template of [standardize_code_lintr] has no placeholder for its
    [lint_report] argument. *)
Definition lintr_prompt (code lint_report : str) : str :=
  py_lines [
    blank;
    "    Given the following R code and the lintr report, improve the code to address all issues according to R's best practices.";
    "    Include only the necessary comments and avoid redundant explanations.";
    blank;
    "    Original Code:";
    "    "]
  ++ code
  ++ py_lines [blank; blank; "  "; blank; "    Improved Code:"; "    "].

Definition summarize_prompt (code language : str) : str :=
  py_lines [blank; "    Summarize the following "]
  ++ language
  ++ py_lines [
    " code. Provide a concise explanation of what the code does.";
    blank;
    "    Code:";
    "    "]
  ++ code
  ++ py_lines [blank; blank; "    Summary:"; "    "].

Definition python_to_r_prompt (python_code : str) : str :=
  py_lines [
    blank;
    "    Translate the following Python code into R code.";
    blank;
    "    Python Code:";
    "    "]
  ++ python_code
  ++ py_lines [blank; blank; "    R Code:"; "    "].

Definition r_to_python_prompt (r_code : str) : str :=
  py_lines [
    blank;
    "    Translate the following R code into Python code.";
    blank;
    "    R Code:";
    "    "]
  ++ r_code
  ++ py_lines [blank; blank; "    Python Code:"; "    "].

(** *** Prompt builders *)

Definition standardize_code_pylint (code lint_report : str) : M E str :=
  let* standardized_code := call_gemini_llm (pylint_prompt code lint_report) in
  ret (strip_fences FENCE_PYTHON standardized_code).

Definition standardize_code_black (code : str) : M E str :=
  let* standardized_code := call_gemini_llm (black_prompt code) in
  ret (strip_fences FENCE_PYTHON standardized_code).

Definition standardize_code_lintr (code lint_report : str) : M E str :=
  let* standardized_code := call_gemini_llm (lintr_prompt code lint_report) in
  ret (strip_fences FENCE_R standardized_code).

Definition summarize_code (code language : str) : M E str :=
  let* summary := call_gemini_llm (summarize_prompt code language) in
  ret summary.

Definition translate_python_to_r (python_code : str) : M E str :=
  let* r_code := call_gemini_llm (python_to_r_prompt python_code) in
  ret r_code.

Definition translate_r_to_python (r_code : str) : M E str :=
  let* python_code := call_gemini_llm (r_to_python_prompt r_code) in
  ret python_code.

(** *** Orchestrator *)

Definition standardized_path (file_path : str) : str :=
  py "standardized_" ++ file_path.

(** The Pylint branch of [main]. *)
Definition main_pylint (file_path original_code : str) : M E unit :=
  let standardized_file_path := standardized_path file_path in
  let* lint_report := analyze_code_pylint file_path in
  st (Subheader (py "Pylint Report"));;
  st (Text lint_report);;
  let* standardized_code := standardize_code_pylint original_code lint_report in
  write_text standardized_file_path standardized_code;;
  st (Subheader (py "Standardized Code (Pylint)"));;
  st (TextArea (py "Standardized Code") standardized_code);;
  let* new_lint_report := analyze_code_pylint standardized_file_path in
  st (Subheader (py "New Pylint Report"));;
  st (Text new_lint_report);;
  let new_pylint_score := extract_pylint_score new_lint_report in
  st (Subheader (py "New Pylint Score"));;
  st (Text new_pylint_score).

(** The Black branch of [main]. *)
Definition main_black (file_path : str) : M E unit :=
  let standardized_file_path := standardized_path file_path in
  let* standardized_code := format_code_black file_path in
  write_text standardized_file_path standardized_code;;
  st (Subheader (py "Standardized Code (Black)"));;
  st (TextArea (py "Standardized Code") standardized_code).

(** The lintr branch of [main]. *)
Definition main_lintr (file_path original_code : str) : M E unit :=
  let standardized_file_path := standardized_path file_path in
  let* lint_report := analyze_code_lintr file_path in
  st (Subheader (py "lintr Report"));;
  st (Text lint_report);;
  let* standardized_code := standardize_code_lintr original_code lint_report in
  write_text standardized_file_path standardized_code;;
  st (Subheader (py "Standardized Code (lintr)"));;
  st (TextArea (py "Standardized Code") standardized_code).

(** The nested [if]/[elif] on language and standardizer; a pair with no
    branch does nothing. *)
Definition main_branch (l : language) (s : standardizer)
    (file_path original_code : str) : M E unit :=
  match l, s with
  | Python, Pylint => main_pylint file_path original_code
  | Python, Black => main_black file_path
  | R, lintr => main_lintr file_path original_code
  | _, _ => ret tt
  end.

(** The download step: the file is opened for reading and handed to the
    button, which reads it. *)
Definition main_download (standardized_file_path : str) : M E unit :=
  let* data := read_text standardized_file_path in
  st (DownloadButton (py "Download Standardized Code") data
        standardized_file_path (py "text/plain")).

(** The Standardize path once a file is uploaded. *)
Definition main_standardize (l : language) (s : standardizer)
    (file_path : str) (buffer : bytes) : M E unit :=
  write_bytes file_path buffer;;
  let* original_code := read_text file_path in
  let* summary := summarize_code original_code (language_label l) in
  st (Subheader (py "Code Summary"));;
  st (TextArea (py "Summary Output") summary);;
  main_branch l s file_path original_code;;
  main_download (standardized_path file_path).

Definition main_translate (l : language) (translation_code : str)
    (pressed : bool) : M E unit :=
  match l with
  | Python =>
      st (TextArea (py "Paste Python code here:") translation_code);;
      st (Button (py "Translate to R"));;
      if pressed then
        let* translated_code := translate_python_to_r translation_code in
        st (Subheader (py "Translated R Code"));;
        st (TextArea (py "R Code") translated_code)
      else ret tt
  | R =>
      st (TextArea (py "Paste R code here:") translation_code);;
      st (Button (py "Translate to Python"));;
      if pressed then
        let* translated_code := translate_r_to_python translation_code in
        st (Subheader (py "Translated Python Code"));;
        st (TextArea (py "Python Code") translated_code)
      else ret tt
  end.

Definition main (i : inputs) : M E unit :=
  st (Title (py "Code Standardizer and Translator"));;
  st (Radio (py "Choose an action:") [py "Standardize"; py "Translate"]);;
  st (Radio (py "Choose a language:") [py "Python"; py "R"]);;
  match action_choice i with
  | Translate =>
      main_translate (language_choice i) (translation_code i) (button i)
  | Standardize =>
      st (Radio (py "Choose a standardizer:")
            [py "Pylint"; py "Black"; py "lintr"]);;
      st (FileUploader (py "Upload a file") [py "py"; py "r"]);;
      match uploaded_file i with
      | None => ret tt
      | Some (file_path, buffer) =>
          main_standardize (language_choice i) (standardizer_choice i)
            file_path buffer
      end
  end.


(** *** Notions used to state the properties *)

(** What is spawned after the checker: nothing when the checker raised,
    the command otherwise. *)
Definition then_spawned (r : exec_result) (command : list str)
    : list (list str) :=
  match r with
  | NotFound => []
  | Completed _ _ _ => [command]
  end.

(** A command leaves a file alone when running it never changes what the
    working directory holds at that path. *)
Definition leaves_file (file_path : str) (args : list str) : Prop :=
  forall h, files (snd (exec args h)) !! file_path = files h !! file_path.

(** The commands spawned on the Pylint path of [main]. *)
Definition pylint_path_commands (file_path : str) : list (list str) :=
  [PYLINT_VERSION; pip_install "pylint"; pylint_command file_path;
   pylint_command (standardized_path file_path)].

(** The upload is on disk as it was saved. *)
Definition upload_on_disk (file_path : str) (buffer : bytes) (w : world E)
    : Prop :=
  files (machine w) !! file_path = Some buffer.

(** Since the upload was saved, only the standardized path was opened for
    writing; [base] is what had been written before. *)
Definition only_standardized_written (base : list str) (file_path : str)
    (w : world E) : Prop :=
  exists extra,
    written w = base ++ file_path :: extra /\
    Forall (eq (standardized_path file_path)) extra.

(** A property of the world that every run of [m] keeps, however the run
    ends. *)
Definition preserves (P : world E -> Prop) {A} (m : M E A) : Prop :=
  forall w, P w -> P (snd (m w)).

(** A property that only looks at the working directory and at the paths
    written. *)
Definition about_disk (P : world E -> Prop) : Prop :=
  forall w w',
    files (machine w') = files (machine w) ->
    written w' = written w ->
    P w -> P w'.

(** The direction of a translation, by the language chosen. *)
Definition translation_prompt (l : language) (code : str) : str :=
  match l with
  | Python => python_to_r_prompt code
  | R => r_to_python_prompt code
  end.

(** * Properties *)

Local Close Scope string_scope.

(** ** Score extractor *)

Lemma first_rated_line_skip (pre rest : list str) :
  Forall (fun l => str_contains MARKER l = false) pre ->
  first_rated_line (pre ++ rest) = first_rated_line rest.
Proof.
  induction 1 as [|l pre Hl _ IH]; simpl.
  - reflexivity.
  - rewrite Hl. exact IH.
Qed.

(** C1, as amended: when the report has a line with the marker phrase,
    the extractor returns the first such line with its leading and
    trailing whitespace removed. *)
Theorem extract_pylint_score_first_match
    (report : str) (pre : list str) (line : str) (post : list str) :
  str_splitlines report = pre ++ line :: post ->
  Forall (fun l => str_contains MARKER l = false) pre ->
  str_contains MARKER line = true ->
  extract_pylint_score report = str_strip line.
Proof.
  intros Hsplit Hpre Hline. unfold extract_pylint_score.
  rewrite Hsplit, first_rated_line_skip by assumption.
  simpl. rewrite Hline. reflexivity.
Qed.

(** C2: when no line of the report has the marker phrase, the extractor
    returns the fallback string. *)
Theorem extract_pylint_score_fallback (report : str) :
  Forall (fun l => str_contains MARKER l = false) (str_splitlines report) ->
  extract_pylint_score report = FALLBACK.
Proof.
  intros H. unfold extract_pylint_score.
  rewrite <- (app_nil_r (str_splitlines report)).
  rewrite first_rated_line_skip by assumption. reflexivity.
Qed.

(** ** Fence stripping *)

Lemma FENCE_eq : FENCE = [96; 96; 96].
Proof. reflexivity. Qed.

Lemma SPACE_eq : SPACE = [32].
Proof. reflexivity. Qed.

Lemma startswith_fence_ticks (s : str) :
  startswith [96; 96; 96] s = true <-> (3 <= ticks s)%nat.
Proof.
  destruct s as [|a [|b [|c s]]]; cbn [startswith ticks];
    repeat match goal with
           | |- context [96 =? ?x] => destruct (96 =? x)
           end; cbn [andb]; split; intros; try discriminate; try lia;
    reflexivity.
Qed.

Lemma startswith_fence_few_ticks (s : str) :
  (ticks s < 3)%nat -> startswith [96; 96; 96] s = false.
Proof.
  intros H. destruct (startswith [96; 96; 96] s) eqn:Hs; [|reflexivity].
  apply startswith_fence_ticks in Hs. lia.
Qed.

(** Replacing every fence by a space leaves no fence, whatever is still
    to be skipped; and the output starts with no more backticks than the
    input. *)
Lemma replace_fence_clean (s : str) :
  forall k : nat,
    str_contains [96; 96; 96] (replace_from [96; 96; 96] [32] k s) = false /\
    (k = 0%nat ->
     Nat.le (ticks (replace_from [96; 96; 96] [32] 0 s)) (ticks s)).
Proof.
  induction s as [|c s IH]; intros k.
  - split; [reflexivity | intros _; simpl; lia].
  - destruct k as [|k].
    + cbn [replace_from].
      destruct (startswith [96; 96; 96] (c :: s)) eqn:Hs.
      * destruct (IH 2%nat) as [Hclean _].
        cbn [length Nat.sub app].
        split.
        -- cbn [str_contains startswith]. rewrite Hclean. reflexivity.
        -- intros _. cbn [ticks]. simpl. lia.
      * destruct (IH 0%nat) as [Hclean Hticks]. specialize (Hticks eq_refl).
        assert (Hlt : (ticks (c :: s) < 3)%nat).
        { destruct (le_lt_dec 3 (ticks (c :: s))) as [Hge|Hlt]; [|exact Hlt].
          apply startswith_fence_ticks in Hge. congruence. }
        assert (Hout : Nat.le (ticks (c :: replace_from [96; 96; 96] [32] 0 s))
                              (ticks (c :: s))).
        { cbn [ticks]. destruct (96 =? c); lia. }
        split.
        -- cbn [str_contains]. rewrite Hclean, orb_false_r.
           apply startswith_fence_few_ticks. lia.
        -- intros _. exact Hout.
    + cbn [replace_from]. destruct (IH k) as [Hclean _].
      split; [exact Hclean | discriminate].
Qed.

(** Whatever the first [replace] left, the second one leaves no fence. *)
Lemma strip_fences_clean (tagged response : str) :
  str_contains FENCE (strip_fences tagged response) = false.
Proof.
  unfold strip_fences. rewrite FENCE_eq, SPACE_eq.
  cbn [str_replace]. apply replace_fence_clean.
Qed.

(** ** Running monadic code *)

Lemma bind_ret_run {A B} (m : M E A) (k : A -> M E B) w a w' :
  m w = (Ret a, w') -> bind m k w = k a w'.
Proof. intros H. unfold bind. rewrite H. reflexivity. Qed.

Lemma bind_raise_run {A B} (m : M E A) (k : A -> M E B) w e w' :
  m w = (Raise e, w') -> bind m k w = (Raise e, w').
Proof. intros H. unfold bind. rewrite H. reflexivity. Qed.

Lemma subprocess_run_completed args w rc out err h :
  exec args (machine w) = (Completed rc out err, h) ->
  subprocess_run args false w =
    (Ret {| returncode := rc; stdout := out; stderr := err |},
     log_spawn args (set_machine h w)).
Proof. intros H. unfold subprocess_run. rewrite H. reflexivity. Qed.

Lemma subprocess_run_not_found args check w h :
  exec args (machine w) = (NotFound, h) ->
  subprocess_run args check w =
    (Raise (FileNotFoundError (hd [] args)), log_spawn args (set_machine h w)).
Proof. intros H. unfold subprocess_run. rewrite H. reflexivity. Qed.

Lemma subprocess_run_check_failed args w rc out err h :
  exec args (machine w) = (Completed rc out err, h) ->
  rc <> 0%Z ->
  subprocess_run args true w =
    (Raise (CalledProcessError rc args), log_spawn args (set_machine h w)).
Proof.
  intros H Hrc. unfold subprocess_run. rewrite H.
  destruct (Z.eqb_spec rc 0) as [->|_]; [contradiction | reflexivity].
Qed.

Lemma read_text_found path w data text :
  files (machine w) !! path = Some data ->
  decode data = Some text ->
  read_text path w = (Ret text, w).
Proof. intros Hf Hd. unfold read_text. rewrite Hf, Hd. reflexivity. Qed.

Lemma read_text_missing path w :
  files (machine w) !! path = None ->
  read_text path w = (Raise (FileNotFoundError path), w).
Proof. intros Hf. unfold read_text. rewrite Hf. reflexivity. Qed.

Lemma call_gemini_llm_generated prompt w text e :
  llm prompt (env (machine w)) = (Generated text, e) ->
  call_gemini_llm prompt w = (Ret text, asked prompt e w).
Proof.
  intros H. unfold call_gemini_llm, try_except, generate_content.
  rewrite H. reflexivity.
Qed.

Lemma call_gemini_llm_caught prompt w exc e :
  llm prompt (env (machine w)) = (Failed exc, e) ->
  is_Exception exc = true ->
  call_gemini_llm prompt w =
    (Ret [],
     log_ui (Error (py "Error calling Gemini LLM: " ++ exc_str exc))
       (asked prompt e w)).
Proof.
  intros H Hexc. unfold call_gemini_llm, try_except, generate_content.
  rewrite H, Hexc. reflexivity.
Qed.

Lemma call_gemini_llm_uncaught prompt w exc e :
  llm prompt (env (machine w)) = (Failed exc, e) ->
  is_Exception exc = false ->
  call_gemini_llm prompt w = (Raise exc, asked prompt e w).
Proof.
  intros H Hexc. unfold call_gemini_llm, try_except, generate_content.
  rewrite H, Hexc. reflexivity.
Qed.

(** ** Model client and prompt builders *)

(** C3: whatever text the model answers, in particular a response wrapped
    in a language-tagged code fence, each standardize function returns it
    with both [replace] calls applied, and the result has no occurrence of
    the fence delimiter. *)
Theorem standardize_strips_fences (code lint_report response : str)
    (w : world E) :
  (forall e,
     llm (pylint_prompt code lint_report) (env (machine w))
       = (Generated response, e) ->
     standardize_code_pylint code lint_report w
       = (Ret (strip_fences FENCE_PYTHON response),
          asked (pylint_prompt code lint_report) e w) /\
     str_contains FENCE (strip_fences FENCE_PYTHON response) = false) /\
  (forall e,
     llm (lintr_prompt code lint_report) (env (machine w))
       = (Generated response, e) ->
     standardize_code_lintr code lint_report w
       = (Ret (strip_fences FENCE_R response),
          asked (lintr_prompt code lint_report) e w) /\
     str_contains FENCE (strip_fences FENCE_R response) = false) /\
  (forall e,
     llm (black_prompt code) (env (machine w)) = (Generated response, e) ->
     standardize_code_black code w
       = (Ret (strip_fences FENCE_PYTHON response),
          asked (black_prompt code) e w) /\
     str_contains FENCE (strip_fences FENCE_PYTHON response) = false).
Proof.
  split; [|split]; intros e H; (split; [|apply strip_fences_clean]).
  - unfold standardize_code_pylint.
    rewrite (bind_ret_run _ _ _ _ _ (call_gemini_llm_generated _ _ _ _ H)).
    reflexivity.
  - unfold standardize_code_lintr.
    rewrite (bind_ret_run _ _ _ _ _ (call_gemini_llm_generated _ _ _ _ H)).
    reflexivity.
  - unfold standardize_code_black.
    rewrite (bind_ret_run _ _ _ _ _ (call_gemini_llm_generated _ _ _ _ H)).
    reflexivity.
Qed.

(** C4: when the model call raises an exception (an instance of
    [Exception], which is what the [except] clause names), the client
    shows it as an error in the UI and returns the empty string; nothing
    is raised. *)
Theorem call_gemini_llm_never_raises (prompt : str) (w : world E)
    (exc : exception) (e : E) :
  llm prompt (env (machine w)) = (Failed exc, e) ->
  is_Exception exc = true ->
  call_gemini_llm prompt w =
    (Ret [],
     log_ui (Error (py "Error calling Gemini LLM: " ++ exc_str exc))
       (asked prompt e w)).
Proof.
  intros Hraised Hexception.
  unfold call_gemini_llm, try_except.
  assert (Hbody : generate_content prompt w = (Raise exc, asked prompt e w)).
  { unfold generate_content. rewrite Hraised. reflexivity. }
  rewrite Hbody, Hexception. reflexivity.
Qed.

(** ** Analyzer and formatter adapters *)

(** C5: once the availability check has returned and the analysis command
    was spawned, the adapter returns the captured standard output for
    every exit status, zero or not. *)
Theorem analyze_returns_stdout (file_path : str) (w w1 : world E)
    (rc : Z) (out err : str) (h : host E) :
  (ensure_pylint_installed w = (Ret tt, w1) ->
   exec (pylint_command file_path) (machine w1) = (Completed rc out err, h) ->
   analyze_code_pylint file_path w
     = (Ret out, log_spawn (pylint_command file_path) (set_machine h w1))) /\
  (ensure_lintr_installed w = (Ret tt, w1) ->
   exec (lintr_command file_path) (machine w1) = (Completed rc out err, h) ->
   analyze_code_lintr file_path w
     = (Ret out, log_spawn (lintr_command file_path) (set_machine h w1))).
Proof.
  split; intros Hensure Hexec.
  - unfold analyze_code_pylint.
    rewrite (bind_ret_run _ _ _ _ _ Hensure).
    rewrite (bind_ret_run _ _ _ _ _ (subprocess_run_completed _ _ _ _ _ _ Hexec)).
    reflexivity.
  - unfold analyze_code_lintr.
    rewrite (bind_ret_run _ _ _ _ _ Hensure).
    rewrite (bind_ret_run _ _ _ _ _ (subprocess_run_completed _ _ _ _ _ _ Hexec)).
    reflexivity.
Qed.

(** C8: once the availability check has returned and the formatter was
    spawned on the file, the adapter returns the text of the file as it
    is on disk after the formatter ran, whatever the formatter's exit
    status. *)
Theorem format_code_black_reads_back (file_path : str) (w w1 : world E)
    (rc : Z) (out err : str) (h : host E) (data : bytes) (text : str) :
  ensure_black_installed w = (Ret tt, w1) ->
  exec (black_command file_path) (machine w1) = (Completed rc out err, h) ->
  files h !! file_path = Some data ->
  decode data = Some text ->
  format_code_black file_path w
    = (Ret text, log_spawn (black_command file_path) (set_machine h w1)).
Proof.
  intros Hensure Hexec Hfile Hdecode. unfold format_code_black.
  rewrite (bind_ret_run _ _ _ _ _ Hensure).
  rewrite (bind_ret_run _ _ _ _ _ (subprocess_run_completed _ _ _ _ _ _ Hexec)).
  erewrite bind_ret_run by (apply read_text_found with (data := data); eassumption).
  reflexivity.
Qed.

(** ** Tool availability checkers *)

Ltac run_world :=
  cbn [machine ui spawned written prompts files env fst snd andb negb
       log_ui log_spawn log_write log_prompt set_machine store].

Lemma ensure_pylint_missing w h1 r2 h2 :
  exec PYLINT_VERSION (machine w) = (NotFound, h1) ->
  exec (pip_install "pylint") h1 = (r2, h2) ->
  exists w',
    ensure_pylint_installed w
      = (match r2 with
         | NotFound => Raise (FileNotFoundError sys_executable)
         | Completed _ _ _ => Ret tt
         end, w') /\
    machine w' = h2 /\
    spawned w' = spawned w ++ [PYLINT_VERSION; pip_install "pylint"].
Proof.
  intros Hversion Hinstall.
  unfold ensure_pylint_installed, try_except, bind, subprocess_run, st, ret.
  rewrite Hversion. run_world. rewrite Hinstall. run_world.
  destruct r2; eexists; (split; [reflexivity|]); run_world;
    rewrite <- app_assoc; split; reflexivity.
Qed.

Lemma ensure_black_missing w h1 r2 h2 :
  exec BLACK_VERSION (machine w) = (NotFound, h1) ->
  exec (pip_install "black") h1 = (r2, h2) ->
  exists w',
    ensure_black_installed w
      = (match r2 with
         | NotFound => Raise (FileNotFoundError sys_executable)
         | Completed _ _ _ => Ret tt
         end, w') /\
    machine w' = h2 /\
    spawned w' = spawned w ++ [BLACK_VERSION; pip_install "black"].
Proof.
  intros Hversion Hinstall.
  unfold ensure_black_installed, try_except, bind, subprocess_run, st, ret.
  rewrite Hversion. run_world. rewrite Hinstall. run_world.
  destruct r2; eexists; (split; [reflexivity|]); run_world;
    rewrite <- app_assoc; split; reflexivity.
Qed.

Lemma ensure_lintr_missing w rc out err h1 r2 h2 :
  exec LINTR_LIBRARY (machine w) = (Completed rc out err, h1) ->
  rc <> 0%Z ->
  exec LINTR_INSTALL h1 = (r2, h2) ->
  exists w',
    ensure_lintr_installed w
      = (match r2 with
         | NotFound => Raise (FileNotFoundError (py "Rscript"))
         | Completed _ _ _ => Ret tt
         end, w') /\
    machine w' = h2 /\
    spawned w' = spawned w ++ [LINTR_LIBRARY; LINTR_INSTALL].
Proof.
  intros Hlibrary Hrc Hinstall.
  unfold ensure_lintr_installed, try_except.
  rewrite (bind_raise_run _ _ _ _ _
             (subprocess_run_check_failed _ _ _ _ _ _ Hlibrary Hrc)).
  unfold bind, subprocess_run, st, ret.
  run_world. rewrite Hinstall. run_world.
  destruct r2; eexists; (split; [reflexivity|]); run_world;
    rewrite <- app_assoc; split; reflexivity.
Qed.

Lemma ensure_lintr_no_rscript w h1 :
  exec LINTR_LIBRARY (machine w) = (NotFound, h1) ->
  ensure_lintr_installed w
    = (Raise (FileNotFoundError (py "Rscript")),
       log_spawn LINTR_LIBRARY (set_machine h1 w)).
Proof.
  intros Hlibrary. unfold ensure_lintr_installed, try_except.
  rewrite (bind_raise_run _ _ _ _ _
             (subprocess_run_not_found _ _ _ _ Hlibrary)).
  reflexivity.
Qed.

Lemma spawned_after_run {A} (r : outcome unit) (w1 : world E)
    (command : list str) (k : CompletedProcess -> M E A) :
  (forall c w, spawned (snd (k c w)) = spawned w) ->
  spawned (snd (match r with
                | Ret a => bind (subprocess_run command false) k w1
                | Raise e => (Raise e, w1)
                end))
  = spawned w1 ++ match r with Ret _ => [command] | Raise _ => [] end.
Proof.
  intros Hk. destruct r as [[]|e]; cbn [snd].
  - unfold bind, subprocess_run.
    destruct (exec command (machine w1)) as [[|rc out err] h];
      cbn [andb snd].
    + reflexivity.
    + rewrite Hk. reflexivity.
  - rewrite app_nil_r. reflexivity.
Qed.

(** C6, as amended: for Pylint and Black, a version command that finds no
    executable is followed by exactly one install command, and then, if
    that command could be spawned, by the analysis (or formatting)
    command; for lintr the same holds when the library check exits with a
    non-zero status, while a missing [Rscript] executable is not handled:
    the error propagates after the check alone. *)
Theorem install_attempted_once (file_path : str) (w : world E)
    (h1 h2 : host E) (r2 : exec_result) :
  (exec PYLINT_VERSION (machine w) = (NotFound, h1) ->
   exec (pip_install "pylint") h1 = (r2, h2) ->
   spawned (snd (analyze_code_pylint file_path w))
     = spawned w ++ [PYLINT_VERSION; pip_install "pylint"]
         ++ then_spawned r2 (pylint_command file_path)) /\
  (exec BLACK_VERSION (machine w) = (NotFound, h1) ->
   exec (pip_install "black") h1 = (r2, h2) ->
   spawned (snd (format_code_black file_path w))
     = spawned w ++ [BLACK_VERSION; pip_install "black"]
         ++ then_spawned r2 (black_command file_path)) /\
  (forall rc out err,
     exec LINTR_LIBRARY (machine w) = (Completed rc out err, h1) ->
     rc <> 0%Z ->
     exec LINTR_INSTALL h1 = (r2, h2) ->
     spawned (snd (analyze_code_lintr file_path w))
       = spawned w ++ [LINTR_LIBRARY; LINTR_INSTALL]
           ++ then_spawned r2 (lintr_command file_path)) /\
  (exec LINTR_LIBRARY (machine w) = (NotFound, h1) ->
   analyze_code_lintr file_path w
     = (Raise (FileNotFoundError (py "Rscript")),
        log_spawn LINTR_LIBRARY (set_machine h1 w))).
Proof.
  repeat split.
  - intros Hversion Hinstall.
    destruct (ensure_pylint_missing _ _ _ _ Hversion Hinstall)
      as (w' & Hrun & _ & Hspawned).
    unfold analyze_code_pylint, bind at 1. rewrite Hrun.
    destruct r2; cbn [then_spawned].
    + cbn [snd]. rewrite Hspawned. reflexivity.
    + rewrite (spawned_after_run (Ret tt)) by reflexivity.
      rewrite Hspawned, <- app_assoc. reflexivity.
  - intros Hversion Hinstall.
    destruct (ensure_black_missing _ _ _ _ Hversion Hinstall)
      as (w' & Hrun & _ & Hspawned).
    unfold format_code_black, bind at 1. rewrite Hrun.
    destruct r2; cbn [then_spawned].
    + cbn [snd]. rewrite Hspawned. reflexivity.
    + rewrite (spawned_after_run (Ret tt)).
      * rewrite Hspawned, <- app_assoc. reflexivity.
      * intros c w0. unfold bind, read_text, ret.
        destruct (files (machine w0) !! file_path) as [data|]; [|reflexivity].
        destruct (decode data); reflexivity.
  - intros rc out err Hlibrary Hrc Hinstall.
    destruct (ensure_lintr_missing _ _ _ _ _ _ _ Hlibrary Hrc Hinstall)
      as (w' & Hrun & _ & Hspawned).
    unfold analyze_code_lintr, bind at 1. rewrite Hrun.
    destruct r2; cbn [then_spawned].
    + cbn [snd]. rewrite Hspawned. reflexivity.
    + rewrite (spawned_after_run (Ret tt)) by reflexivity.
      rewrite Hspawned, <- app_assoc. reflexivity.
  - intros Hlibrary. unfold analyze_code_lintr.
    apply bind_raise_run, ensure_lintr_no_rscript, Hlibrary.
Qed.

(** ** Prompts *)

Lemma startswith_app (x rest : str) : startswith x (x ++ rest) = true.
Proof.
  induction x as [|c x IH]; [reflexivity|].
  cbn [app startswith]. rewrite N.eqb_refl. exact IH.
Qed.

Lemma str_contains_suffix (x before rest : str) :
  str_contains x rest = true -> str_contains x (before ++ rest) = true.
Proof.
  intros H. induction before as [|c before IH]; [exact H|].
  cbn [app str_contains]. rewrite IH. apply orb_true_r.
Qed.

Lemma str_contains_middle (x before rest : str) :
  str_contains x (before ++ x ++ rest) = true.
Proof.
  apply str_contains_suffix.
  destruct (x ++ rest) as [|c t] eqn:Happ; cbn [str_contains];
    rewrite <- Happ, startswith_app; reflexivity.
Qed.

(** The Pylint prompt carries both of its inputs. *)
Lemma pylint_prompt_has_inputs (code lint_report : str) :
  str_contains code (pylint_prompt code lint_report) = true /\
  str_contains lint_report (pylint_prompt code lint_report) = true.
Proof.
  unfold pylint_prompt. split.
  - apply str_contains_middle.
  - rewrite (app_assoc _ code), (app_assoc _ (py_lines _)).
    apply str_contains_middle.
Qed.

Lemma call_gemini_llm_logs_prompt (prompt : str) (w : world E) :
  prompts (snd (call_gemini_llm prompt w)) = prompts w ++ [prompt].
Proof.
  unfold call_gemini_llm, try_except, generate_content.
  destruct (llm prompt (env (machine w))) as [[text|exc] e].
  - reflexivity.
  - destruct (is_Exception exc); reflexivity.
Qed.

(** C7, at a failing input: the prompt that [standardize_code_lintr]
    sends holds the code but not the lint report it was given. *)
Theorem lintr_prompt_omits_report (w : world E) :
  let code := py "x = 1" in
  let lint_report := py "a.R:1:3: style: Use <-, not =, for assignment." in
  prompts (snd (standardize_code_lintr code lint_report w))
    = prompts w ++ [lintr_prompt code lint_report] /\
  str_contains code (lintr_prompt code lint_report) = true /\
  str_contains lint_report (lintr_prompt code lint_report) = false.
Proof.
  intros code lint_report. split; [|split; vm_compute; reflexivity].
  unfold standardize_code_lintr, bind.
  rewrite <- call_gemini_llm_logs_prompt.
  destruct (call_gemini_llm _ w) as [[text|exc] w']; reflexivity.
Qed.

(** The lintr prompt is the same whatever the report. *)
Lemma lintr_prompt_ignores_report (code report1 report2 : str) :
  lintr_prompt code report1 = lintr_prompt code report2.
Proof. reflexivity. Qed.

(** ** Orchestrator *)

Lemma standardized_path_fresh (file_path : str) :
  file_path <> standardized_path file_path.
Proof.
  intros H. apply (f_equal (@length N)) in H.
  unfold standardized_path in H. rewrite length_app in H.
  change (length (py "standardized_")) with 13%nat in H. lia.
Qed.

Lemma main_branch_unhandled l s file_path original_code :
  handled l s = false ->
  main_branch l s file_path original_code = ret tt.
Proof. destruct l, s; (discriminate || reflexivity). Qed.

(** The summary step returns unless the model call raises something the
    [except] clause does not match; it touches no file. *)
Lemma summarize_code_returns code lang w :
  (forall exc e,
     llm (summarize_prompt code lang) (env (machine w)) = (Failed exc, e) ->
     is_Exception exc = true) ->
  exists summary w',
    summarize_code code lang w = (Ret summary, w') /\
    files (machine w') = files (machine w) /\
    written w' = written w.
Proof.
  intros Hcaught. unfold summarize_code, bind, ret.
  destruct (llm (summarize_prompt code lang) (env (machine w)))
    as [[text|exc] e] eqn:Hllm.
  - rewrite (call_gemini_llm_generated _ _ _ _ Hllm).
    eexists _, _. repeat split.
  - rewrite (call_gemini_llm_caught _ _ _ _ Hllm (Hcaught _ _ eq_refl)).
    eexists _, _. repeat split.
Qed.

(** C9: with a language and standardizer pair that no branch handles,
    and no file left at the standardized path by an earlier run, the only
    file written is the upload itself and the read for the download
    button raises [FileNotFoundError]. *)
Theorem unhandled_pair_download_fails (i : inputs) (file_path : str)
    (buffer : bytes) (code : str) (w : world E) :
  action_choice i = Standardize ->
  uploaded_file i = Some (file_path, buffer) ->
  handled (language_choice i) (standardizer_choice i) = false ->
  files (machine w) !! standardized_path file_path = None ->
  decode buffer = Some code ->
  (forall exc e,
     llm (summarize_prompt code (language_label (language_choice i)))
         (env (machine w)) = (Failed exc, e) ->
     is_Exception exc = true) ->
  exists w',
    main i w = (Raise (FileNotFoundError (standardized_path file_path)), w') /\
    written w' = written w ++ [file_path] /\
    files (machine w') !! standardized_path file_path = None.
Proof.
  intros Haction Hupload Hunhandled Hfresh Hdecode Hcaught.
  unfold main, bind at 1 2 3, st. rewrite Haction.
  unfold bind at 1 2. rewrite Hupload.
  unfold main_standardize, bind at 1, write_bytes.
  set (w1 := log_write file_path (store file_path buffer _)).
  assert (Hfiles1 : files (machine w1) = <[file_path := buffer]> (files (machine w)))
    by reflexivity.
  assert (Hwritten1 : written w1 = written w ++ [file_path]) by reflexivity.
  assert (Henv1 : env (machine w1) = env (machine w)) by reflexivity.
  clearbody w1.
  rewrite (bind_ret_run _ _ _ _ _
             (read_text_found file_path w1 buffer code
                ltac:(rewrite Hfiles1; apply lookup_insert_eq) Hdecode)).
  destruct (summarize_code_returns code
              (language_label (language_choice i)) w1)
    as (summary & w2 & Hsummary & Hfiles2 & Hwritten2).
  { rewrite Henv1. exact Hcaught. }
  rewrite (bind_ret_run _ _ _ _ _ Hsummary).
  rewrite main_branch_unhandled by assumption.
  unfold bind at 1 2 3, st, ret.
  set (w3 := log_ui _ (log_ui _ w2)).
  assert (Hfiles3 : files (machine w3) = files (machine w2)) by reflexivity.
  assert (Hwritten3 : written w3 = written w2) by reflexivity.
  clearbody w3.
  assert (Hmissing : files (machine w3) !! standardized_path file_path = None).
  { rewrite Hfiles3, Hfiles2, Hfiles1.
    rewrite lookup_insert_ne by apply standardized_path_fresh. exact Hfresh. }
  unfold main_download.
  rewrite (bind_raise_run _ _ _ _ _ (read_text_missing _ _ Hmissing)).
  exists w3. repeat split.
  - rewrite Hwritten3, Hwritten2. exact Hwritten1.
  - exact Hmissing.
Qed.

(** ** Frame of the Pylint path *)

Lemma preserves_run (P : world E -> Prop) {A} (m : M E A) w :
  preserves P m -> P w -> P (snd (m w)).
Proof. intros Hm. apply Hm. Qed.

Lemma preserves_ret P {A} (a : A) : preserves P (ret a).
Proof. intros w H. exact H. Qed.

Lemma preserves_bind P {A B} (m : M E A) (k : A -> M E B) :
  preserves P m -> (forall a, preserves P (k a)) -> preserves P (bind m k).
Proof.
  intros Hm Hk w H. unfold bind. specialize (Hm w H).
  destruct (m w) as [[a|e] w']; [apply Hk|]; exact Hm.
Qed.

Lemma preserves_try_except P {A} (body : M E A) handler :
  preserves P body ->
  (forall e h, handler e = Some h -> preserves P h) ->
  preserves P (try_except body handler).
Proof.
  intros Hbody Hhandler w H. unfold try_except. specialize (Hbody w H).
  destruct (body w) as [[a|e] w']; [exact Hbody|].
  destruct (handler e) as [h|] eqn:He; [|exact Hbody].
  apply (Hhandler e h He). exact Hbody.
Qed.

Lemma preserves_st P ev : about_disk P -> preserves P (st ev).
Proof. intros HP w H. apply (HP w); [reflexivity .. | exact H]. Qed.

Lemma preserves_read_text P path : preserves P (read_text path).
Proof.
  intros w H. unfold read_text.
  destruct (files (machine w) !! path) as [data|]; [|exact H].
  destruct (decode data); exact H.
Qed.

Lemma preserves_generate_content P prompt :
  about_disk P -> preserves P (generate_content prompt).
Proof.
  intros HP w H. unfold generate_content.
  destruct (llm prompt (env (machine w))) as [[text|exc] e];
    apply (HP w); (reflexivity || exact H).
Qed.

(** The Pylint path built from its primitives: a property kept by each
    primitive is kept by the whole path. *)
Section Frame.

Variable P : world E -> Prop.
Variable file_path : str.

Hypothesis P_about_disk : about_disk P.
Hypothesis P_subprocess_run :
  forall args check,
    In args (pylint_path_commands file_path) ->
    preserves P (subprocess_run args check).
Hypothesis P_write_text :
  forall text, preserves P (write_text (standardized_path file_path) text).

Lemma frame_call_gemini_llm prompt : preserves P (call_gemini_llm prompt).
Proof.
  apply preserves_try_except;
    [apply preserves_generate_content, P_about_disk|].
  intros e h He. destruct (is_Exception e); [|discriminate].
  injection He as <-.
  apply preserves_bind;
    [apply preserves_st, P_about_disk | intros; apply preserves_ret].
Qed.

Lemma frame_ensure_pylint_installed : preserves P ensure_pylint_installed.
Proof.
  apply preserves_try_except.
  - apply preserves_bind; [|intros; apply preserves_ret].
    apply P_subprocess_run. simpl. auto.
  - intros e h He. destruct e; try discriminate. injection He as <-.
    apply preserves_bind; [apply preserves_st, P_about_disk | intros _].
    apply preserves_bind; [|intros; apply preserves_ret].
    apply P_subprocess_run. simpl. auto.
Qed.

Lemma frame_analyze_code_pylint path :
  path = file_path \/ path = standardized_path file_path ->
  preserves P (analyze_code_pylint path).
Proof.
  intros Hpath.
  apply preserves_bind; [apply frame_ensure_pylint_installed | intros _].
  apply preserves_bind; [|intros; apply preserves_ret].
  apply P_subprocess_run.
  destruct Hpath as [-> | ->]; simpl; auto.
Qed.

Lemma frame_main_pylint original_code :
  preserves P (main_pylint file_path original_code).
Proof.
  unfold main_pylint, standardize_code_pylint.
  repeat first
    [ apply preserves_ret
    | apply preserves_st, P_about_disk
    | apply P_write_text
    | apply frame_call_gemini_llm
    | apply frame_analyze_code_pylint; auto
    | apply preserves_bind; [|intros ?] ].
Qed.

Lemma frame_main_download path : preserves P (main_download path).
Proof.
  apply preserves_bind;
    [apply preserves_read_text | intros; apply preserves_st, P_about_disk].
Qed.

(** From the saved upload to the end of the Standardize path. *)
Lemma frame_main_standardize buffer w :
  P (log_write file_path (store file_path buffer w)) ->
  P (snd (main_standardize Python Pylint file_path buffer w)).
Proof.
  intros Hsaved. unfold main_standardize, bind at 1, write_bytes.
  apply preserves_run; [|exact Hsaved].
  apply preserves_bind; [apply preserves_read_text | intros original_code].
  apply preserves_bind; [|intros summary].
  { apply preserves_bind;
      [apply frame_call_gemini_llm | intros; apply preserves_ret]. }
  apply preserves_bind; [apply preserves_st, P_about_disk | intros _].
  apply preserves_bind; [apply preserves_st, P_about_disk | intros _].
  apply preserves_bind; [|intros _; apply frame_main_download].
  apply frame_main_pylint.
Qed.

End Frame.

Lemma only_standardized_written_about_disk base file_path :
  about_disk (only_standardized_written base file_path).
Proof.
  intros w w' _ Hwritten (extra & Hw & Hextra).
  exists extra. rewrite Hwritten. auto.
Qed.

Lemma only_standardized_written_run base file_path args check :
  preserves (only_standardized_written base file_path)
    (subprocess_run args check).
Proof.
  intros w H. unfold subprocess_run.
  destruct (exec args (machine w)) as [[|rc out err] h]; [exact H|].
  destruct (check && negb (rc =? 0)%Z); exact H.
Qed.

Lemma only_standardized_written_write base file_path text :
  preserves (only_standardized_written base file_path)
    (write_text (standardized_path file_path) text).
Proof.
  intros w (extra & Hwritten & Hextra). unfold write_text.
  assert (Hkept : forall data,
    only_standardized_written base file_path
      (log_write (standardized_path file_path)
         (store (standardized_path file_path) data w))).
  { intros data. exists (extra ++ [standardized_path file_path]). split.
    - cbn [written log_write store set_machine]. rewrite Hwritten.
      rewrite <- app_assoc. reflexivity.
    - apply Forall_app. split; [exact Hextra|]. repeat constructor. }
  destruct (encode text); apply Hkept.
Qed.

Lemma upload_on_disk_about_disk file_path buffer :
  about_disk (upload_on_disk file_path buffer).
Proof.
  intros w w' Hfiles _ H. unfold upload_on_disk. rewrite Hfiles. exact H.
Qed.

Lemma upload_on_disk_run file_path buffer args check :
  leaves_file file_path args ->
  preserves (upload_on_disk file_path buffer) (subprocess_run args check).
Proof.
  intros Hleaves w Hfile. unfold subprocess_run.
  specialize (Hleaves (machine w)).
  destruct (exec args (machine w)) as [r h]. cbn [snd] in Hleaves.
  assert (Hkept : upload_on_disk file_path buffer
                    (log_spawn args (set_machine h w))).
  { unfold upload_on_disk. cbn [machine log_spawn set_machine].
    rewrite Hleaves. exact Hfile. }
  destruct r as [|rc out err]; [exact Hkept|].
  destruct (check && negb (rc =? 0)%Z); exact Hkept.
Qed.

Lemma upload_on_disk_write file_path buffer text :
  preserves (upload_on_disk file_path buffer)
    (write_text (standardized_path file_path) text).
Proof.
  intros w Hfile. unfold write_text.
  assert (Hkept : forall data,
    upload_on_disk file_path buffer
      (log_write (standardized_path file_path)
         (store (standardized_path file_path) data w))).
  { intros data. unfold upload_on_disk.
    cbn [machine log_write store set_machine files].
    rewrite lookup_insert_ne by (apply not_eq_sym, standardized_path_fresh).
    exact Hfile. }
  destruct (encode text); apply Hkept.
Qed.

(** C10: on the Pylint path, however the run ends, every write after the
    upload was saved went to the standardized path; and the upload is on
    disk at its own path exactly as it was saved, the linter and
    installer commands themselves leaving that file alone. *)
Theorem pylint_path_keeps_upload (i : inputs) (file_path : str)
    (buffer : bytes) (w : world E) :
  action_choice i = Standardize ->
  language_choice i = Python ->
  standardizer_choice i = Pylint ->
  uploaded_file i = Some (file_path, buffer) ->
  (exists extra,
     written (snd (main i w)) = written w ++ file_path :: extra /\
     Forall (eq (standardized_path file_path)) extra) /\
  ((forall args, In args (pylint_path_commands file_path) ->
                 leaves_file file_path args) ->
   files (machine (snd (main i w))) !! file_path = Some buffer).
Proof.
  intros Haction Hlanguage Hstandardizer Hupload.
  unfold main, bind at 1 2 3, st. rewrite Haction.
  unfold bind at 1 2. rewrite Hupload, Hlanguage, Hstandardizer.
  split.
  - refine (frame_main_standardize
              (only_standardized_written (written w) file_path) file_path
              _ _ _ buffer _ _).
    + apply only_standardized_written_about_disk.
    + intros args check _. apply only_standardized_written_run.
    + apply only_standardized_written_write.
    + exists []. split; [reflexivity | constructor].
  - intros Hleave.
    refine (frame_main_standardize
              (upload_on_disk file_path buffer) file_path
              _ _ _ buffer _ _).
    + apply upload_on_disk_about_disk.
    + intros args check Hin. apply upload_on_disk_run, Hleave, Hin.
    + apply upload_on_disk_write.
    + unfold upload_on_disk. cbn [machine log_write store set_machine files].
      apply lookup_insert_eq.
Qed.

(** * Further properties *)

(** ** Substrings *)

Lemma startswith_split (p s : str) :
  startswith p s = true <-> exists rest, s = p ++ rest.
Proof.
  revert s. induction p as [|a p IH]; intros s.
  - split; [intros _; exists s; reflexivity | reflexivity].
  - destruct s as [|b s]; cbn [startswith].
    + split; [discriminate | intros [rest H]; discriminate].
    + rewrite andb_true_iff, N.eqb_eq, IH. split.
      * intros [-> [rest ->]]. exists rest. reflexivity.
      * intros [rest H]. injection H as -> ->. eauto.
Qed.

Lemma str_contains_split (sub s : str) :
  str_contains sub s = true <-> exists before rest, s = before ++ sub ++ rest.
Proof.
  induction s as [|c s IH]; cbn [str_contains].
  - rewrite orb_false_r, startswith_split. split.
    + intros [rest H]. exists [], rest. exact H.
    + intros (before & rest & H). destruct before; [|discriminate].
      exists rest. exact H.
  - rewrite orb_true_iff, startswith_split, IH. split.
    + intros [[rest H] | (before & rest & H)].
      * exists [], rest. exact H.
      * exists (c :: before), rest. rewrite H. reflexivity.
    + intros (before & rest & H). destruct before as [|b before].
      * left. exists rest. exact H.
      * right. injection H as _ ->. eauto.
Qed.

Lemma str_contains_prefix (p q s : str) :
  str_contains (p ++ q) s = true -> str_contains p s = true.
Proof.
  rewrite !str_contains_split. intros (before & rest & ->).
  exists before, (q ++ rest). rewrite <- app_assoc. reflexivity.
Qed.

(** ** Whitespace stripping *)

Lemma str_lstrip_app_kept (v : str) (c : char) (t : str) :
  isspace c = false ->
  str_lstrip (v ++ c :: t) = str_lstrip v ++ c :: t.
Proof.
  intros Hc. induction v as [|x v IH]; cbn [app str_lstrip].
  - rewrite Hc. reflexivity.
  - destruct (isspace x); [exact IH | reflexivity].
Qed.

Lemma str_rstrip_app_kept (t : str) (c : char) (v : str) :
  isspace c = false ->
  str_rstrip (t ++ c :: v) = t ++ c :: str_rstrip v.
Proof.
  intros Hc. unfold str_rstrip.
  rewrite rev_app_distr. cbn [rev]. rewrite <- app_assoc. cbn [app].
  rewrite str_lstrip_app_kept by exact Hc.
  rewrite rev_app_distr. cbn [rev]. rewrite rev_involutive.
  rewrite <- app_assoc. reflexivity.
Qed.

(** Stripping keeps everything between a first and a last character that
    are not whitespace. *)
Lemma str_strip_kept (before : str) (x : char) (mid : str) (z : char)
    (rest : str) :
  isspace x = false -> isspace z = false ->
  str_strip (before ++ x :: mid ++ z :: rest)
  = str_lstrip before ++ x :: mid ++ z :: str_rstrip rest.
Proof.
  intros Hx Hz. unfold str_strip.
  rewrite str_lstrip_app_kept by exact Hx.
  change (str_lstrip before ++ x :: mid ++ z :: rest)
    with (str_lstrip before ++ (x :: mid) ++ z :: rest).
  rewrite app_assoc, str_rstrip_app_kept by exact Hz.
  rewrite <- app_assoc. reflexivity.
Qed.

Lemma str_lstrip_fixed (s : str) :
  str_lstrip s = s <-> s = [] \/ exists c t, s = c :: t /\ isspace c = false.
Proof.
  split.
  - destruct s as [|c t]; [auto|]. cbn [str_lstrip].
    destruct (isspace c) eqn:Hc; [|eauto].
    intros H. exfalso.
    assert (Hlen : forall u, (length (str_lstrip u) <= length u)%nat).
    { induction u as [|y u IH]; cbn [str_lstrip length]; [lia|].
      destruct (isspace y); cbn [length]; lia. }
    specialize (Hlen t). rewrite H in Hlen. cbn [length] in Hlen. lia.
  - intros [-> | (c & t & -> & Hc)]; [reflexivity|].
    cbn [str_lstrip]. rewrite Hc. reflexivity.
Qed.

Lemma str_lstrip_lstrip (s : str) : str_lstrip (str_lstrip s) = str_lstrip s.
Proof.
  induction s as [|c s IH]; [reflexivity|]. cbn [str_lstrip].
  destruct (isspace c) eqn:Hc; [exact IH|].
  cbn [str_lstrip]. rewrite Hc. reflexivity.
Qed.

Lemma str_rstrip_rstrip (s : str) : str_rstrip (str_rstrip s) = str_rstrip s.
Proof.
  unfold str_rstrip. rewrite rev_involutive, str_lstrip_lstrip. reflexivity.
Qed.

(** A stripped string starts with no whitespace and ends with none. *)
Lemma str_strip_fixed (s : str) :
  str_lstrip (str_strip s) = str_strip s /\
  str_rstrip (str_strip s) = str_strip s.
Proof.
  unfold str_strip. split; [|apply str_rstrip_rstrip].
  destruct (proj1 (str_lstrip_fixed (str_lstrip s)) (str_lstrip_lstrip s))
    as [-> | (c & t & -> & Hc)]; [reflexivity|].
  change (c :: t) with ([] ++ c :: t).
  rewrite str_rstrip_app_kept by exact Hc.
  cbn [app str_lstrip]. rewrite Hc. reflexivity.
Qed.

Lemma Forall_str_lstrip (P : char -> Prop) (s : str) :
  Forall P s -> Forall P (str_lstrip s).
Proof.
  induction 1 as [|c s Hc Hs IH]; cbn [str_lstrip]; [constructor|].
  destruct (isspace c); [exact IH | constructor; assumption].
Qed.

Lemma Forall_str_strip (P : char -> Prop) (s : str) :
  Forall P s -> Forall P (str_strip s).
Proof.
  intros H. unfold str_strip, str_rstrip.
  apply Forall_rev, Forall_str_lstrip, Forall_rev, Forall_str_lstrip, H.
Qed.

(** ** Lines *)

Ltac split_scrutinee :=
  repeat match goal with
         | |- context [match ?p with _ => _ end] => is_var p; destruct p
         end.

(** One step of [splitlines_from], with the CR LF test spelled out. *)
Lemma splitlines_from_cons (cur : str) (c : char) (s : str) :
  splitlines_from cur (c :: s)
  = if is_linebreak c
    then rev cur ::
         splitlines_from []
           (if (c =? 13) && startswith [10] s then tl s else s)
    else splitlines_from (c :: cur) s.
Proof.
  cbn [splitlines_from]. destruct (is_linebreak c); [|reflexivity].
  destruct (N.eqb_spec c 13) as [->|Hc]; cbn [andb].
  - destruct s as [|x s]; [reflexivity|]. cbn [startswith andb tl].
    destruct (N.eqb_spec 10 x) as [<-|Hx]; [reflexivity|].
    rewrite andb_false_l || idtac.
    split_scrutinee; try reflexivity; congruence.
  - split_scrutinee; try reflexivity; congruence.
Qed.

(** No line of [splitlines] holds a line boundary. *)
Lemma splitlines_from_no_break (n : nat) :
  forall (s cur : str),
    (length s <= n)%nat ->
    Forall (fun c => is_linebreak c = false) cur ->
    Forall (Forall (fun c => is_linebreak c = false)) (splitlines_from cur s).
Proof.
  induction n as [|n IH]; intros s cur Hlen Hcur.
  - destruct s; [|cbn [length] in Hlen; lia].
    destruct cur; repeat constructor. apply Forall_rev. exact Hcur.
  - destruct s as [|c s].
    + destruct cur; repeat constructor. apply Forall_rev. exact Hcur.
    + cbn [length] in Hlen. rewrite splitlines_from_cons.
      destruct (is_linebreak c) eqn:Hc.
      * constructor; [apply Forall_rev; exact Hcur|].
        apply IH; [|constructor].
        destruct ((c =? 13) && startswith [10] s); [|lia].
        destruct s; cbn [tl length] in *; lia.
      * apply IH; [lia|]. constructor; assumption.
Qed.

Lemma first_rated_line_cases (lines : list str) :
  first_rated_line lines = FALLBACK \/
  exists line,
    In line lines /\ str_contains MARKER line = true /\
    first_rated_line lines = str_strip line.
Proof.
  induction lines as [|l lines IH]; [left; reflexivity|].
  cbn [first_rated_line]. destruct (str_contains MARKER l) eqn:Hl.
  - right. exists l. cbn [In]. auto.
  - destruct IH as [IH | (line & Hin & Hline & IH)]; [left; exact IH|].
    right. exists line. cbn [In]. auto.
Qed.

(** ** Score extractor, continued *)

(** The score is a single trimmed line: whatever the report, the
    extractor's result holds no line boundary and neither starts nor ends
    with whitespace. *)
Theorem extract_pylint_score_trimmed_line (report : str) :
  Forall (fun c => is_linebreak c = false) (extract_pylint_score report) /\
  str_lstrip (extract_pylint_score report) = extract_pylint_score report /\
  str_rstrip (extract_pylint_score report) = extract_pylint_score report.
Proof.
  unfold extract_pylint_score.
  destruct (first_rated_line_cases (str_splitlines report))
    as [-> | (line & Hin & _ & ->)].
  - repeat split; [|vm_compute; reflexivity ..].
    vm_compute. repeat constructor.
  - split; [|apply str_strip_fixed].
    apply Forall_str_strip.
    pose proof (splitlines_from_no_break (length report) report []
                  (le_n _) (List.Forall_nil _)) as Hlines.
    rewrite List.Forall_forall in Hlines. apply Hlines. exact Hin.
Qed.

(** The marker phrase survives the trimming: the extractor's result is
    the fallback string or holds the marker phrase. *)
Theorem extract_pylint_score_fallback_or_marker (report : str) :
  extract_pylint_score report = FALLBACK \/
  str_contains MARKER (extract_pylint_score report) = true.
Proof.
  unfold extract_pylint_score.
  destruct (first_rated_line_cases (str_splitlines report))
    as [H | (line & _ & Hline & ->)]; [left; exact H | right].
  apply str_contains_split in Hline. destruct Hline as (before & rest & ->).
  set (m := py "our code has been rated a").
  assert (HM : MARKER = 89 :: m ++ [116]) by reflexivity.
  assert (Hshape : forall a b : str,
             a ++ MARKER ++ b = a ++ 89 :: m ++ 116 :: b).
  { intros a b. rewrite HM. cbn [app]. rewrite <- app_assoc. reflexivity. }
  rewrite Hshape, str_strip_kept by reflexivity.
  apply str_contains_split.
  exists (str_lstrip before), (str_rstrip rest).
  rewrite Hshape. reflexivity.
Qed.

(** ** Fence stripping, continued *)

Lemma replace_from_absent (old new s : str) :
  str_contains old s = false -> replace_from old new 0 s = s.
Proof.
  induction s as [|c s IH]; [reflexivity|].
  cbn [str_contains replace_from]. intros H.
  apply orb_false_elim in H. destruct H as [Hstart Hrest].
  rewrite Hstart, IH by exact Hrest. reflexivity.
Qed.

Lemma strip_fences_absent (tag response : str) :
  str_contains FENCE response = false ->
  strip_fences (FENCE ++ tag) response = response.
Proof.
  intros Hfence. unfold strip_fences.
  assert (Htagged : str_contains (FENCE ++ tag) response = false).
  { destruct (str_contains (FENCE ++ tag) response) eqn:H; [|reflexivity].
    apply str_contains_prefix in H. congruence. }
  assert (Hfirst : str_replace (FENCE ++ tag) SPACE response = response).
  { rewrite FENCE_eq. cbn [app str_replace]. apply replace_from_absent.
    rewrite FENCE_eq in Htagged. exact Htagged. }
  rewrite Hfirst, FENCE_eq. cbn [str_replace].
  apply replace_from_absent. rewrite <- FENCE_eq. exact Hfence.
Qed.

(** A response without fence delimiter comes back from the standardize
    functions exactly as the model gave it. *)
Theorem standardize_keeps_unfenced (code lint_report response : str)
    (w : world E) :
  str_contains FENCE response = false ->
  (forall e,
     llm (pylint_prompt code lint_report) (env (machine w))
       = (Generated response, e) ->
     fst (standardize_code_pylint code lint_report w) = Ret response) /\
  (forall e,
     llm (black_prompt code) (env (machine w)) = (Generated response, e) ->
     fst (standardize_code_black code w) = Ret response) /\
  (forall e,
     llm (lintr_prompt code lint_report) (env (machine w))
       = (Generated response, e) ->
     fst (standardize_code_lintr code lint_report w) = Ret response).
Proof.
  intros Hfence.
  assert (Hpy : strip_fences FENCE_PYTHON response = response)
    by exact (strip_fences_absent (py "python") response Hfence).
  assert (Hr : strip_fences FENCE_R response = response)
    by exact (strip_fences_absent (py "r") response Hfence).
  split; [|split]; intros e H.
  - unfold standardize_code_pylint.
    rewrite (bind_ret_run _ _ _ _ _ (call_gemini_llm_generated _ _ _ _ H)).
    unfold ret. cbn [fst]. rewrite Hpy. reflexivity.
  - unfold standardize_code_black.
    rewrite (bind_ret_run _ _ _ _ _ (call_gemini_llm_generated _ _ _ _ H)).
    unfold ret. cbn [fst]. rewrite Hpy. reflexivity.
  - unfold standardize_code_lintr.
    rewrite (bind_ret_run _ _ _ _ _ (call_gemini_llm_generated _ _ _ _ H)).
    unfold ret. cbn [fst]. rewrite Hr. reflexivity.
Qed.

(** Text without backtick is copied by a [replace] whose pattern starts
    with a backtick. *)
Lemma replace_from_no_backtick (old new body rest : str) :
  Forall (fun c => c <> 96) body ->
  replace_from (96 :: old) new 0 (body ++ rest)
  = body ++ replace_from (96 :: old) new 0 rest.
Proof.
  induction 1 as [|c body Hc _ IH]; [reflexivity|].
  cbn [app]. cbn [replace_from startswith].
  destruct (N.eqb_spec 96 c) as [Heq|_]; [congruence|].
  cbn [andb]. rewrite IH. reflexivity.
Qed.

(** A response that is one fenced block, the fence tagged with the
    language the function strips and the body free of backticks, comes
    back as the body between two spaces. *)
Theorem strip_fences_fenced_block (body : str) :
  Forall (fun c => c <> 96) body ->
  strip_fences FENCE_PYTHON (FENCE_PYTHON ++ body ++ FENCE)
    = SPACE ++ body ++ SPACE /\
  strip_fences FENCE_R (FENCE_R ++ body ++ FENCE) = SPACE ++ body ++ SPACE.
Proof.
  intros Hbody. unfold strip_fences.
  assert (Hsecond :
    str_replace FENCE SPACE (SPACE ++ body ++ FENCE) = SPACE ++ body ++ SPACE).
  { change (SPACE ++ body ++ FENCE) with (32 :: body ++ [96; 96; 96]).
    rewrite FENCE_eq. cbn [str_replace].
    change (32 :: body ++ [96; 96; 96]) with ((32 :: body) ++ [96; 96; 96]).
    rewrite replace_from_no_backtick
      by (constructor; [discriminate | exact Hbody]).
    reflexivity. }
  split.
  - replace (str_replace FENCE_PYTHON SPACE (FENCE_PYTHON ++ body ++ FENCE))
      with (SPACE ++ body ++ FENCE); [exact Hsecond|].
    change (str_replace FENCE_PYTHON SPACE (FENCE_PYTHON ++ body ++ FENCE))
      with (32 :: replace_from (96 :: py "``python") [32] 0
                    (body ++ [96; 96; 96])).
    rewrite replace_from_no_backtick by exact Hbody. reflexivity.
  - replace (str_replace FENCE_R SPACE (FENCE_R ++ body ++ FENCE))
      with (SPACE ++ body ++ FENCE); [exact Hsecond|].
    change (str_replace FENCE_R SPACE (FENCE_R ++ body ++ FENCE))
      with (32 :: replace_from (96 :: py "``r") [32] 0
                    (body ++ [96; 96; 96])).
    rewrite replace_from_no_backtick by exact Hbody. reflexivity.
Qed.

(** ** Prompts, continued *)

(** Every prompt template embeds the code it is given, and the summary
    template the language label as well. *)
Theorem prompts_embed_code (code lint_report language : str) :
  str_contains code (black_prompt code) = true /\
  str_contains code (lintr_prompt code lint_report) = true /\
  str_contains code (summarize_prompt code language) = true /\
  str_contains language (summarize_prompt code language) = true /\
  str_contains code (python_to_r_prompt code) = true /\
  str_contains code (r_to_python_prompt code) = true.
Proof.
  unfold black_prompt, lintr_prompt, summarize_prompt, python_to_r_prompt,
    r_to_python_prompt.
  repeat match goal with
         | |- _ /\ _ => split
         end;
    try apply str_contains_middle.
  rewrite (app_assoc _ language), (app_assoc _ (py_lines _)).
  apply str_contains_middle.
Qed.

(** ** Model client, continued *)

Lemma call_gemini_llm_effects (prompt : str) (w : world E) :
  prompts (snd (call_gemini_llm prompt w)) = prompts w ++ [prompt] /\
  files (machine (snd (call_gemini_llm prompt w))) = files (machine w) /\
  spawned (snd (call_gemini_llm prompt w)) = spawned w /\
  written (snd (call_gemini_llm prompt w)) = written w /\
  exists shown, ui (snd (call_gemini_llm prompt w)) = ui w ++ shown.
Proof.
  unfold call_gemini_llm, try_except, generate_content.
  destruct (llm prompt (env (machine w))) as [[text|exc] e].
  - repeat split. exists []. cbn. rewrite app_nil_r. reflexivity.
  - destruct (is_Exception exc); repeat split.
    + eexists. reflexivity.
    + exists []. cbn. rewrite app_nil_r. reflexivity.
Qed.


(** With the model service failing on every prompt with an [Exception],
    every prompt function returns the empty string. *)
Theorem prompt_functions_empty_on_failure (code lint_report language : str)
    (w : world E) (exc : exception) :
  (forall prompt, exists e,
     llm prompt (env (machine w)) = (Failed exc, e)) ->
  is_Exception exc = true ->
  fst (standardize_code_pylint code lint_report w) = Ret [] /\
  fst (standardize_code_black code w) = Ret [] /\
  fst (standardize_code_lintr code lint_report w) = Ret [] /\
  fst (summarize_code code language w) = Ret [] /\
  fst (translate_python_to_r code w) = Ret [] /\
  fst (translate_r_to_python code w) = Ret [].
Proof.
  intros Hdown Hexception.
  assert (Hcall : forall prompt, exists w',
             call_gemini_llm prompt w = (Ret [], w')).
  { intros prompt. destruct (Hdown prompt) as [e He].
    eexists. apply (call_gemini_llm_caught _ _ _ _ He Hexception). }
  unfold standardize_code_pylint, standardize_code_black,
    standardize_code_lintr, summarize_code, translate_python_to_r,
    translate_r_to_python.
  repeat match goal with
         | |- _ /\ _ => split
         end;
    match goal with
    | |- fst (bind (call_gemini_llm ?p) _ _) = _ =>
        destruct (Hcall p) as [w' Hw'];
        rewrite (bind_ret_run _ _ _ _ _ Hw'); reflexivity
    end.
Qed.

(** ** Tool availability checkers, continued *)

(** When the check command finds the tool and exits with status 0, the
    checker returns having spawned that command alone: nothing is
    installed and nothing is shown. *)
Theorem checkers_skip_install (w : world E) (out err : str) (h : host E) :
  (exec PYLINT_VERSION (machine w) = (Completed 0 out err, h) ->
   ensure_pylint_installed w
     = (Ret tt, log_spawn PYLINT_VERSION (set_machine h w))) /\
  (exec BLACK_VERSION (machine w) = (Completed 0 out err, h) ->
   ensure_black_installed w
     = (Ret tt, log_spawn BLACK_VERSION (set_machine h w))) /\
  (exec LINTR_LIBRARY (machine w) = (Completed 0 out err, h) ->
   ensure_lintr_installed w
     = (Ret tt, log_spawn LINTR_LIBRARY (set_machine h w))).
Proof.
  split; [|split]; intros H;
    unfold ensure_pylint_installed, ensure_black_installed,
      ensure_lintr_installed, try_except, bind, subprocess_run, ret;
    rewrite H; reflexivity.
Qed.

(** The Pylint and Black checkers only handle a missing executable: when
    the version command runs and exits with a non-zero status, the
    [CalledProcessError] leaves the adapter, nothing is installed and the
    tool is not run on the file. *)
Theorem version_failure_propagates (file_path : str) (w : world E)
    (rc : Z) (out err : str) (h : host E) :
  rc <> 0%Z ->
  (exec PYLINT_VERSION (machine w) = (Completed rc out err, h) ->
   analyze_code_pylint file_path w
     = (Raise (CalledProcessError rc PYLINT_VERSION),
        log_spawn PYLINT_VERSION (set_machine h w))) /\
  (exec BLACK_VERSION (machine w) = (Completed rc out err, h) ->
   format_code_black file_path w
     = (Raise (CalledProcessError rc BLACK_VERSION),
        log_spawn BLACK_VERSION (set_machine h w))).
Proof.
  intros Hrc. split; intros H.
  - unfold analyze_code_pylint. apply bind_raise_run.
    unfold ensure_pylint_installed, try_except.
    rewrite (bind_raise_run _ _ _ _ _
               (subprocess_run_check_failed _ _ _ _ _ _ H Hrc)).
    reflexivity.
  - unfold format_code_black. apply bind_raise_run.
    unfold ensure_black_installed, try_except.
    rewrite (bind_raise_run _ _ _ _ _
               (subprocess_run_check_failed _ _ _ _ _ _ H Hrc)).
    reflexivity.
Qed.

(** The install is not verified: whatever its exit status, the tool is
    run next, and if it is still missing the [FileNotFoundError] of that
    run leaves the adapter, after exactly the three commands. *)
Theorem failed_install_surfaces (file_path : str) (w : world E)
    (h1 h2 h3 : host E) (rc : Z) (out err : str) :
  (exec PYLINT_VERSION (machine w) = (NotFound, h1) ->
   exec (pip_install "pylint") h1 = (Completed rc out err, h2) ->
   exec (pylint_command file_path) h2 = (NotFound, h3) ->
   fst (analyze_code_pylint file_path w)
     = Raise (FileNotFoundError (py "pylint")) /\
   spawned (snd (analyze_code_pylint file_path w))
     = spawned w ++ [PYLINT_VERSION; pip_install "pylint";
                     pylint_command file_path]) /\
  (exec BLACK_VERSION (machine w) = (NotFound, h1) ->
   exec (pip_install "black") h1 = (Completed rc out err, h2) ->
   exec (black_command file_path) h2 = (NotFound, h3) ->
   fst (format_code_black file_path w)
     = Raise (FileNotFoundError (py "black")) /\
   spawned (snd (format_code_black file_path w))
     = spawned w ++ [BLACK_VERSION; pip_install "black";
                     black_command file_path]).
Proof.
  split; intros Hversion Hinstall Hrun.
  - destruct (ensure_pylint_missing _ _ _ _ Hversion Hinstall)
      as (w' & Hensure & Hmachine & Hspawned).
    unfold analyze_code_pylint.
    rewrite (bind_ret_run _ _ _ _ _ Hensure).
    rewrite <- Hmachine in Hrun.
    rewrite (bind_raise_run _ _ _ _ _ (subprocess_run_not_found _ _ _ _ Hrun)).
    cbn [fst snd spawned log_spawn set_machine]. rewrite Hspawned.
    rewrite <- app_assoc. split; reflexivity.
  - destruct (ensure_black_missing _ _ _ _ Hversion Hinstall)
      as (w' & Hensure & Hmachine & Hspawned).
    unfold format_code_black.
    rewrite (bind_ret_run _ _ _ _ _ Hensure).
    rewrite <- Hmachine in Hrun.
    rewrite (bind_raise_run _ _ _ _ _ (subprocess_run_not_found _ _ _ _ Hrun)).
    cbn [fst snd spawned log_spawn set_machine]. rewrite Hspawned.
    rewrite <- app_assoc. split; reflexivity.
Qed.

(** ** Orchestrator, continued *)

Lemma bind_ret_inv {A B} (m : M E A) (k : A -> M E B) w b w' :
  bind m k w = (Ret b, w') ->
  exists a w1, m w = (Ret a, w1) /\ k a w1 = (Ret b, w').
Proof.
  unfold bind. destruct (m w) as [[a|e] w1]; [eauto | discriminate].
Qed.

(** The Translate path does no file I/O and spawns no process; it sends
    one prompt, in the direction of the chosen language, when the button
    is pressed and none otherwise. *)
Theorem translate_touches_nothing (i : inputs) (w : world E) :
  action_choice i = Translate ->
  files (machine (snd (main i w))) = files (machine w) /\
  spawned (snd (main i w)) = spawned w /\
  written (snd (main i w)) = written w /\
  prompts (snd (main i w))
    = prompts w ++
      (if button i
       then [translation_prompt (language_choice i) (translation_code i)]
       else []).
Proof.
  intros Haction. unfold main, bind at 1 2 3, st. rewrite Haction.
  unfold main_translate, translation_prompt.
  destruct (language_choice i), (button i);
    unfold bind at 1 2, st;
    try (cbn; rewrite app_nil_r; repeat split; reflexivity);
    unfold translate_python_to_r, translate_r_to_python, bind, st, ret;
    match goal with
    | |- context [call_gemini_llm ?p ?w0] =>
        destruct (call_gemini_llm_effects p w0) as (Hp & Hf & Hs & Hw & _);
        destruct (call_gemini_llm p w0) as [[text|exc] w1];
        cbn in Hp, Hf, Hs, Hw |- *; auto
    end.
Qed.

(** With a pressed button and a model call that fails with an
    [Exception], the Translate path ends normally: the error is shown,
    then the result heading and an empty result area. *)
Theorem translate_failure_shows_empty (i : inputs) (w : world E)
    (exc : exception) (e : E) :
  action_choice i = Translate ->
  button i = true ->
  llm (translation_prompt (language_choice i) (translation_code i))
      (env (machine w)) = (Failed exc, e) ->
  is_Exception exc = true ->
  fst (main i w) = Ret tt /\
  exists before heading label,
    ui (snd (main i w))
    = ui w ++ before ++
      [Error (py "Error calling Gemini LLM: " ++ exc_str exc);
       Subheader heading; TextArea label []].
Proof.
  intros Haction Hbutton Hllm Hexception.
  assert (Hmain : exists before heading label w',
            main i w = (Ret tt, w') /\
            ui w' = ui w ++ before ++
                    [Error (py "Error calling Gemini LLM: " ++ exc_str exc);
                     Subheader heading; TextArea label []]).
  { unfold main, bind at 1 2 3, st. rewrite Haction.
    unfold main_translate. rewrite Hbutton.
    unfold translation_prompt in Hllm.
    destruct (language_choice i);
      unfold bind at 1 2, st;
      unfold translate_python_to_r, translate_r_to_python;
      match goal with
      | |- context [bind (bind (call_gemini_llm ?p) _) _ ?w0] =>
          pose proof (call_gemini_llm_caught p w0 exc e Hllm Hexception)
            as Hcall
      end;
      rewrite (bind_ret_run _ _ _ _ _ (bind_ret_run _ _ _ _ _ Hcall));
      eexists [_; _; _; _; _], _, _, _;
      (split; [reflexivity|]);
      cbn [ui log_ui asked log_prompt set_machine app];
      rewrite <- !app_assoc; reflexivity. }
  destruct Hmain as (before & heading & label & w' & Hmain & Hui).
  rewrite Hmain. cbn [fst snd]. split; [reflexivity|].
  exists before, heading, label. exact Hui.
Qed.

(** An upload that the text codec cannot decode stops the Standardize
    path right after the file is saved: [UnicodeDecodeError] is raised,
    no prompt is sent and no tool is spawned. *)
Theorem undecodable_upload_stops (i : inputs) (file_path : str)
    (buffer : bytes) (w : world E) :
  action_choice i = Standardize ->
  uploaded_file i = Some (file_path, buffer) ->
  decode buffer = None ->
  fst (main i w) = Raise UnicodeDecodeError /\
  files (machine (snd (main i w))) = <[file_path := buffer]> (files (machine w)) /\
  prompts (snd (main i w)) = prompts w /\
  spawned (snd (main i w)) = spawned w.
Proof.
  intros Haction Hupload Hdecode.
  assert (Hmain : exists w',
            main i w = (Raise UnicodeDecodeError, w') /\
            files (machine w') = <[file_path := buffer]> (files (machine w)) /\
            prompts w' = prompts w /\ spawned w' = spawned w).
  { unfold main, bind at 1 2 3, st. rewrite Haction.
    unfold bind at 1 2. rewrite Hupload.
    unfold main_standardize, bind at 1, write_bytes.
    assert (Hread : forall w0 : world E,
              read_text file_path
                (log_write file_path (store file_path buffer w0))
              = (Raise UnicodeDecodeError,
                 log_write file_path (store file_path buffer w0))).
    { intros w0. unfold read_text.
      cbn [machine log_write store set_machine files].
      rewrite lookup_insert_eq, Hdecode. reflexivity. }
    rewrite (bind_raise_run _ _ _ _ _ (Hread _)).
    eexists. repeat split. }
  destruct Hmain as (w' & Hmain & Hfiles & Hprompts & Hspawned).
  rewrite Hmain. cbn [fst snd]. auto.
Qed.

Lemma read_text_ret_inv path w text w' :
  read_text path w = (Ret text, w') ->
  w' = w /\
  exists data, files (machine w) !! path = Some data /\ decode data = Some text.
Proof.
  unfold read_text.
  destruct (files (machine w) !! path) as [data|]; [|discriminate].
  destruct (decode data) as [t|] eqn:Hd; [|discriminate].
  intros [= <- <-]. eauto.
Qed.

Lemma write_text_ret_inv path text w w' :
  write_text path text w = (Ret tt, w') ->
  exists data,
    encode text = Some data /\ w' = log_write path (store path data w).
Proof.
  unfold write_text. destruct (encode text) as [data|]; [|discriminate].
  intros [= <-]. eauto.
Qed.

Lemma format_code_black_ret_inv file_path w text w' :
  format_code_black file_path w = (Ret text, w') ->
  exists data,
    files (machine w') !! file_path = Some data /\ decode data = Some text.
Proof.
  unfold format_code_black. intros H.
  apply bind_ret_inv in H. destruct H as (_ & w1 & _ & H).
  apply bind_ret_inv in H. destruct H as (_ & w2 & _ & H).
  apply bind_ret_inv in H. destruct H as (t & w3 & Hread & H).
  injection H as <- <-.
  apply read_text_ret_inv in Hread. destruct Hread as [-> Hdata].
  exact Hdata.
Qed.

(** When the Black branch returns, the standardized file holds the text
    of the uploaded file as the formatter left it: the upload decodes to
    a text whose encoding is the content of the standardized file. *)
Theorem main_black_copies_formatted (file_path : str) (w w' : world E) :
  main_black file_path w = (Ret tt, w') ->
  exists formatted text copy,
    files (machine w') !! file_path = Some formatted /\
    decode formatted = Some text /\
    encode text = Some copy /\
    files (machine w') !! standardized_path file_path = Some copy.
Proof.
  unfold main_black. intros H.
  apply bind_ret_inv in H. destruct H as (text & w1 & Hformat & H).
  apply bind_ret_inv in H. destruct H as ([] & w2 & Hwrite & H).
  apply format_code_black_ret_inv in Hformat.
  destruct Hformat as (formatted & Hfile & Hdecode).
  apply write_text_ret_inv in Hwrite. destruct Hwrite as (copy & Hencode & ->).
  unfold bind, st in H. injection H as <-.
  exists formatted, text, copy.
  cbn [machine log_ui log_write store set_machine files].
  rewrite lookup_insert_eq.
  rewrite lookup_insert_ne by (apply not_eq_sym, standardized_path_fresh).
  auto.
Qed.

(** With the model service failing on every prompt with an [Exception],
    a lintr branch that returns has written the encoding of the empty
    text to the standardized path: the failure is not guarded. *)
Theorem main_lintr_writes_empty_on_failure (file_path original_code : str)
    (w w' : world E) (exc : exception) :
  (forall prompt e0, exists e1, llm prompt e0 = (Failed exc, e1)) ->
  is_Exception exc = true ->
  main_lintr file_path original_code w = (Ret tt, w') ->
  exists data,
    encode [] = Some data /\
    files (machine w') !! standardized_path file_path = Some data.
Proof.
  intros Hdown Hexception. unfold main_lintr. intros H.
  apply bind_ret_inv in H. destruct H as (lint_report & w1 & _ & H).
  unfold bind at 1 2, st in H.
  apply bind_ret_inv in H. destruct H as (standardized_code & w2 & Hmodel & H).
  apply bind_ret_inv in H. destruct H as ([] & w3 & Hwrite & H).
  unfold standardize_code_lintr in Hmodel.
  apply bind_ret_inv in Hmodel. destruct Hmodel as (answer & w4 & Hcall & Hret).
  match type of Hcall with
  | call_gemini_llm ?p ?w0 = _ =>
      destruct (Hdown p (env (machine w0))) as [e1 He1];
      rewrite (call_gemini_llm_caught p w0 exc e1 He1 Hexception) in Hcall
  end.
  injection Hcall as <- <-. injection Hret as <- <-.
  change (strip_fences FENCE_R []) with (@nil N) in Hwrite.
  apply write_text_ret_inv in Hwrite. destruct Hwrite as (data & Hencode & ->).
  unfold bind, st in H. injection H as <-.
  exists data. split; [exact Hencode|].
  cbn [machine log_ui log_write store set_machine files].
  apply lookup_insert_eq.
Qed.

(** *** What the Pylint branch sends to the model *)

Lemma prompts_st L ev : preserves (fun w => prompts w = L) (st ev).
Proof. intros w H. exact H. Qed.

Lemma prompts_subprocess_run L args check :
  preserves (fun w => prompts w = L) (subprocess_run args check).
Proof.
  intros w H. unfold subprocess_run.
  destruct (exec args (machine w)) as [[|rc out err] h]; [exact H|].
  destruct (check && negb (rc =? 0)%Z); exact H.
Qed.

Lemma prompts_write_text L path text :
  preserves (fun w => prompts w = L) (write_text path text).
Proof.
  intros w H. unfold write_text. destruct (encode text); exact H.
Qed.

Lemma prompts_analyze_code_pylint L path :
  preserves (fun w => prompts w = L) (analyze_code_pylint path).
Proof.
  apply preserves_bind; [|intros _].
  - apply preserves_try_except.
    + apply preserves_bind;
        [apply prompts_subprocess_run | intros; apply preserves_ret].
    + intros e h He. destruct e; try discriminate. injection He as <-.
      apply preserves_bind; [apply prompts_st | intros _].
      apply preserves_bind;
        [apply prompts_subprocess_run | intros; apply preserves_ret].
  - apply preserves_bind;
      [apply prompts_subprocess_run | intros; apply preserves_ret].
Qed.

(** Once the first analysis has returned, the one prompt the Pylint
    branch sends is the rewrite template filled with the original code
    and the report that analysis printed, however the branch ends. *)
Theorem main_pylint_sends_report (file_path original_code lint_report : str)
    (w w1 : world E) :
  analyze_code_pylint file_path w = (Ret lint_report, w1) ->
  prompts (snd (main_pylint file_path original_code w))
  = prompts w ++ [pylint_prompt original_code lint_report].
Proof.
  intros Hanalyze.
  assert (Hw1 : prompts w1 = prompts w).
  { pose proof (prompts_analyze_code_pylint (prompts w) file_path w eq_refl)
      as H. rewrite Hanalyze in H. exact H. }
  unfold main_pylint. rewrite (bind_ret_run _ _ _ _ _ Hanalyze).
  unfold bind at 1 2, st. unfold standardize_code_pylint.
  match goal with
  | |- prompts (snd (bind (bind (call_gemini_llm ?p) ?r) ?k ?w0)) = _ =>
      destruct (call_gemini_llm_effects p w0) as (Hp & _);
      change (prompts w0) with (prompts w1) in Hp; rewrite Hw1 in Hp;
      unfold bind at 1 2;
      destruct (call_gemini_llm p w0) as [[answer|e] w2]; cbn [snd] in Hp;
      [|exact Hp]
  end.
  unfold ret at 1.
  match goal with
  | |- prompts (snd (?m w2)) = ?L =>
      apply (preserves_run (fun w => prompts w = L) m w2); [|exact Hp]
  end.
  repeat first
    [ apply preserves_ret
    | apply prompts_st
    | apply prompts_write_text
    | apply prompts_analyze_code_pylint
    | apply preserves_bind; [|intros ?] ].
Qed.
End Program.

(** * The properties on the concrete host *)

Local Abbreviation demo_input l s :=
  {| action_choice := Standardize;
     language_choice := l;
     standardizer_choice := s;
     uploaded_file := Some (py "a.py", [Byte.x78; Byte.x3d; Byte.x31]);
     translation_code := [];
     button := false |}.

(** ** Score extractor *)

(** A report whose rated line is indented: the extractor returns the line
    without its indentation, not the line itself. *)
Lemma extract_pylint_score_not_verbatim :
  let report := py "  Your code has been rated at 9.50/10" in
  str_splitlines report = [report] /\
  str_contains MARKER report = true /\
  extract_pylint_score report = py "Your code has been rated at 9.50/10" /\
  extract_pylint_score report <> report.
Proof.
  cbv zeta. repeat split; try (vm_compute; reflexivity).
  vm_compute. discriminate.
Qed.

Lemma extract_pylint_score_first_match_witness :
  extract_pylint_score
    (py_lines ["************* Module a"%string;
               "  Your code has been rated at 9.50/10  "%string;
               "Your code has been rated at 1.00/10"%string])
  = str_strip (py "  Your code has been rated at 9.50/10  ").
Proof.
  apply (extract_pylint_score_first_match _
           [py "************* Module a"]
           (py "  Your code has been rated at 9.50/10  ")
           [py "Your code has been rated at 1.00/10"]).
  - vm_compute. reflexivity.
  - repeat constructor.
  - vm_compute. reflexivity.
Defined.

Lemma extract_pylint_score_fallback_witness :
  extract_pylint_score
    (py_lines ["************* Module a"%string;
               "a.py:1:0: E0001: Parsing failed (syntax-error)"%string])
  = FALLBACK.
Proof.
  apply extract_pylint_score_fallback.
  vm_compute. repeat constructor.
Defined.

(** ** Model client and prompt builders *)

Lemma standardize_strips_fences_witness :
  let w := demo_world ∅ [] true in
  let code := py "x=1" in
  (standardize_code_pylint demo_llm demo_exc_str code demo_report w
     = (Ret (strip_fences FENCE_PYTHON demo_response),
        asked (pylint_prompt code demo_report) (env (machine w)) w) /\
   str_contains FENCE (strip_fences FENCE_PYTHON demo_response) = false) /\
  (standardize_code_lintr demo_llm demo_exc_str code demo_report w
     = (Ret (strip_fences FENCE_R demo_response),
        asked (lintr_prompt code demo_report) (env (machine w)) w) /\
   str_contains FENCE (strip_fences FENCE_R demo_response) = false) /\
  (standardize_code_black demo_llm demo_exc_str code w
     = (Ret (strip_fences FENCE_PYTHON demo_response),
        asked (black_prompt code) (env (machine w)) w) /\
   str_contains FENCE (strip_fences FENCE_PYTHON demo_response) = false).
Proof.
  intros w code.
  destruct (standardize_strips_fences demo_llm demo_exc_str
              code demo_report demo_response w)
    as (Hpylint & Hlintr & Hblack).
  split; [apply Hpylint | split; [apply Hlintr | apply Hblack]]; reflexivity.
Defined.

Lemma call_gemini_llm_never_raises_witness :
  let w := demo_world ∅ [] false in
  call_gemini_llm demo_llm demo_exc_str (py "Summarize this.") w
  = (Ret [],
     log_ui (Error (py "Error calling Gemini LLM: 503 service unavailable"))
       (asked (py "Summarize this.") (env (machine w)) w)).
Proof.
  intros w.
  apply (call_gemini_llm_never_raises demo_llm demo_exc_str
           (py "Summarize this.") w
           (ClientError (py "503 service unavailable")) (env (machine w)));
    reflexivity.
Defined.

(** A [BaseException] outside [Exception] is not what the [except] clause
    names: it propagates. *)
Lemma call_gemini_llm_interrupt_propagates :
  let llm := fun (_ : str) (e : demo_env) =>
               (Failed (Interrupt (py "KeyboardInterrupt")), e) in
  fst (call_gemini_llm llm demo_exc_str (py "Summarize this.")
         (demo_world ∅ [] true))
  = Raise (Interrupt (py "KeyboardInterrupt")).
Proof. reflexivity. Qed.

(** ** Analyzer and formatter adapters *)

Lemma analyze_returns_stdout_witness :
  (let w := demo_world ∅ [py "pylint"] true in
   fst (analyze_code_pylint demo_exec demo_sys_executable (py "a.py") w)
   = Ret demo_report) /\
  (let w := demo_world ∅ [py "Rscript"; py "lintr"] true in
   fst (analyze_code_lintr demo_exec (py "a.R") w)
   = Ret (py "a.R:1:3: style: Use <-, not =, for assignment.")).
Proof.
  split; intros w.
  - pose (w1 := snd (ensure_pylint_installed demo_exec demo_sys_executable w)).
    rewrite (proj1 (analyze_returns_stdout demo_exec demo_sys_executable
                      (py "a.py") w w1 16 demo_report [] (machine w1)));
      reflexivity.
  - pose (w1 := snd (ensure_lintr_installed demo_exec w)).
    rewrite (proj2 (analyze_returns_stdout demo_exec demo_sys_executable
                      (py "a.R") w w1 0
                      (py "a.R:1:3: style: Use <-, not =, for assignment.")
                      [] (machine w1)));
      reflexivity.
Defined.

Lemma format_code_black_reads_back_witness :
  let w := demo_world {[ py "a.py" := [Byte.x78; Byte.x3d; Byte.x31] ]}
             [py "black"] true in
  fst (format_code_black demo_exec demo_decode demo_sys_executable
         (py "a.py") w)
  = Ret (py_lines ["x=1"%string; blank]).
Proof.
  intros w.
  pose (w1 := snd (ensure_black_installed demo_exec demo_sys_executable w)).
  pose (h := snd (demo_exec (black_command (py "a.py")) (machine w1))).
  rewrite (format_code_black_reads_back demo_exec demo_decode
             demo_sys_executable (py "a.py") w w1 0 [] (py "reformatted") h
             [Byte.x78; Byte.x3d; Byte.x31; Byte.x0a]
             (py_lines ["x=1"%string; blank]));
    vm_compute; reflexivity.
Defined.

(** ** Tool availability checkers *)

(** On a machine without R, the lintr checker raises on its check
    command: no install command is spawned and the analysis does not
    run. *)
Lemma ensure_lintr_missing_rscript_no_install :
  let w := demo_world ∅ [] true in
  fst (demo_exec LINTR_LIBRARY (machine w)) = NotFound /\
  fst (ensure_lintr_installed demo_exec w)
    = Raise (FileNotFoundError (py "Rscript")) /\
  spawned (snd (ensure_lintr_installed demo_exec w)) = [LINTR_LIBRARY] /\
  fst (analyze_code_lintr demo_exec (py "a.R") w)
    = Raise (FileNotFoundError (py "Rscript")) /\
  spawned (snd (analyze_code_lintr demo_exec (py "a.R") w)) = [LINTR_LIBRARY].
Proof. cbv zeta. repeat split; vm_compute; reflexivity. Qed.

Lemma install_attempted_once_witness :
  (let w := demo_world ∅ [] true in
   spawned (snd (analyze_code_pylint demo_exec demo_sys_executable
                   (py "a.py") w))
   = [PYLINT_VERSION; pip_install demo_sys_executable "pylint";
      pylint_command (py "a.py")]) /\
  (let w := demo_world ∅ [] true in
   spawned (snd (format_code_black demo_exec demo_decode demo_sys_executable
                   (py "a.py") w))
   = [BLACK_VERSION; pip_install demo_sys_executable "black";
      black_command (py "a.py")]) /\
  (let w := demo_world ∅ [py "Rscript"] true in
   spawned (snd (analyze_code_lintr demo_exec (py "a.R") w))
   = [LINTR_LIBRARY; LINTR_INSTALL; lintr_command (py "a.R")]) /\
  (let w := demo_world ∅ [] true in
   analyze_code_lintr demo_exec (py "a.R") w
   = (Raise (FileNotFoundError (py "Rscript")),
      log_spawn LINTR_LIBRARY w)).
Proof.
  split; [|split; [|split]]; intros w.
  - pose (h := machine w).
    apply (proj1 (install_attempted_once demo_exec demo_decode
                    demo_sys_executable (py "a.py") w h
                    (demo_install (py "pylint") h) (Completed 0 [] [])));
      reflexivity.
  - pose (h := machine w).
    apply (proj1 (proj2 (install_attempted_once demo_exec demo_decode
                           demo_sys_executable (py "a.py") w h
                           (demo_install (py "black") h) (Completed 0 [] []))));
      reflexivity.
  - pose (h := machine w).
    apply (proj1 (proj2 (proj2 (install_attempted_once demo_exec demo_decode
                                  demo_sys_executable (py "a.R") w h
                                  (demo_install (py "lintr") h)
                                  (Completed 0 [] []))))
             1%Z [] (py "there is no package called lintr"));
      (reflexivity || discriminate).
  - apply (proj2 (proj2 (proj2 (install_attempted_once demo_exec demo_decode
                                  demo_sys_executable (py "a.R") w (machine w)
                                  (machine w) NotFound)))).
    reflexivity.
Defined.

(** ** Orchestrator *)

Lemma unhandled_pair_download_fails_witness :
  let w := demo_world ∅ [] false in
  exists w',
    main demo_exec demo_llm demo_decode demo_encode demo_sys_executable
      demo_exc_str (demo_input Python lintr) w
    = (Raise (FileNotFoundError (py "standardized_a.py")), w') /\
    written w' = [py "a.py"] /\
    files (machine w') !! py "standardized_a.py" = None.
Proof.
  intros w.
  apply (unhandled_pair_download_fails demo_exec demo_llm demo_decode
           demo_encode demo_sys_executable demo_exc_str
           (demo_input Python lintr) (py "a.py")
           [Byte.x78; Byte.x3d; Byte.x31] (py "x=1") w);
    try reflexivity.
  intros exc e H. vm_compute in H. injection H as <- _. reflexivity.
Defined.

Lemma demo_exec_leaves_upload (args : list str) :
  In args (pylint_path_commands demo_sys_executable (py "a.py")) ->
  leaves_file demo_exec (py "a.py") args.
Proof.
  intros [<-|[<-|[<-|[<-|[]]]]] h; unfold demo_exec;
    cbn [PYLINT_VERSION pip_install pylint_command];
    repeat match goal with
           | |- context [str_eqb ?a ?b] =>
               let r := eval vm_compute in (str_eqb a b) in
               change (str_eqb a b) with r; cbv iota
           end;
    try destruct (demo_has _ h); reflexivity.
Defined.

Lemma pylint_path_keeps_upload_witness :
  let w := demo_world ∅ [] true in
  let run := main demo_exec demo_llm demo_decode demo_encode
               demo_sys_executable demo_exc_str (demo_input Python Pylint) w in
  (exists extra,
     written (snd run) = py "a.py" :: extra /\
     Forall (eq (py "standardized_a.py")) extra) /\
  files (machine (snd run)) !! py "a.py" = Some [Byte.x78; Byte.x3d; Byte.x31].
Proof.
  intros w run.
  destruct (pylint_path_keeps_upload demo_exec demo_llm demo_decode
              demo_encode demo_sys_executable demo_exc_str
              (demo_input Python Pylint) (py "a.py")
              [Byte.x78; Byte.x3d; Byte.x31] w
              eq_refl eq_refl eq_refl eq_refl) as [Hwritten Hfile].
  split; [exact Hwritten | apply Hfile, demo_exec_leaves_upload].
Defined.

(** * Further properties on the concrete host *)

Lemma checkers_skip_install_witness :
  (let w := demo_world ∅ [py "pylint"] true in
   ensure_pylint_installed demo_exec demo_sys_executable w
   = (Ret tt, log_spawn PYLINT_VERSION w)) /\
  (let w := demo_world ∅ [py "black"] true in
   ensure_black_installed demo_exec demo_sys_executable w
   = (Ret tt, log_spawn BLACK_VERSION w)) /\
  (let w := demo_world ∅ [py "Rscript"; py "lintr"] true in
   ensure_lintr_installed demo_exec w
   = (Ret tt, log_spawn LINTR_LIBRARY w)).
Proof.
  split; [|split]; intros w.
  - apply (proj1 (checkers_skip_install demo_exec demo_sys_executable w
                    (py "pylint 3.0.0") [] (machine w))).
    reflexivity.
  - apply (proj1 (proj2 (checkers_skip_install demo_exec demo_sys_executable
                           w (py "black, 24.0.0") [] (machine w)))).
    reflexivity.
  - apply (proj2 (proj2 (checkers_skip_install demo_exec demo_sys_executable
                           w [] [] (machine w)))).
    reflexivity.
Defined.

Lemma version_failure_propagates_witness :
  let w := demo_world ∅ [] true in
  analyze_code_pylint failing_exec demo_sys_executable (py "a.py") w
    = (Raise (CalledProcessError 1 PYLINT_VERSION),
       log_spawn PYLINT_VERSION w) /\
  format_code_black failing_exec demo_decode demo_sys_executable (py "a.py") w
    = (Raise (CalledProcessError 1 BLACK_VERSION),
       log_spawn BLACK_VERSION w).
Proof.
  intros w.
  destruct (version_failure_propagates failing_exec demo_decode
              demo_sys_executable (py "a.py") w 1 []
              (py "Traceback (most recent call last)") (machine w))
    as [Hpylint Hblack]; [discriminate|].
  split; [apply Hpylint | apply Hblack]; reflexivity.
Defined.

Lemma failed_install_surfaces_witness :
  let w := demo_world ∅ [] true in
  (fst (analyze_code_pylint offline_exec demo_sys_executable (py "a.py") w)
     = Raise (FileNotFoundError (py "pylint")) /\
   spawned (snd (analyze_code_pylint offline_exec demo_sys_executable
                   (py "a.py") w))
     = [PYLINT_VERSION; pip_install demo_sys_executable "pylint";
        pylint_command (py "a.py")]) /\
  (fst (format_code_black offline_exec demo_decode demo_sys_executable
          (py "a.py") w)
     = Raise (FileNotFoundError (py "black")) /\
   spawned (snd (format_code_black offline_exec demo_decode
                   demo_sys_executable (py "a.py") w))
     = [BLACK_VERSION; pip_install demo_sys_executable "black";
        black_command (py "a.py")]).
Proof.
  intros w.
  destruct (failed_install_surfaces offline_exec demo_decode
              demo_sys_executable (py "a.py") w (machine w) (machine w)
              (machine w) 1 [] (py "No matching distribution found"))
    as [Hpylint Hblack].
  split; [apply Hpylint | apply Hblack]; reflexivity.
Defined.

Lemma standardize_keeps_unfenced_witness :
  let w := demo_world ∅ [] true in
  fst (standardize_code_pylint plain_llm demo_exc_str (py "x=1") demo_report w)
    = Ret (py "x = 1") /\
  fst (standardize_code_black plain_llm demo_exc_str (py "x=1") w)
    = Ret (py "x = 1") /\
  fst (standardize_code_lintr plain_llm demo_exc_str (py "x=1") demo_report w)
    = Ret (py "x = 1").
Proof.
  intros w.
  destruct (standardize_keeps_unfenced plain_llm demo_exc_str (py "x=1")
              demo_report (py "x = 1") w eq_refl)
    as (Hpylint & Hblack & Hlintr).
  split; [|split];
    [apply (Hpylint (env (machine w)))
    | apply (Hblack (env (machine w)))
    | apply (Hlintr (env (machine w)))]; reflexivity.
Defined.

Lemma strip_fences_fenced_block_witness :
  let body := NL :: py "x = 1" ++ [NL] in
  strip_fences FENCE_PYTHON (FENCE_PYTHON ++ body ++ FENCE)
    = SPACE ++ body ++ SPACE /\
  strip_fences FENCE_R (FENCE_R ++ body ++ FENCE) = SPACE ++ body ++ SPACE.
Proof.
  intros body. apply strip_fences_fenced_block.
  repeat (constructor; [discriminate|]). constructor.
Defined.

Lemma prompt_functions_empty_on_failure_witness :
  let w := demo_world ∅ [] false in
  let code := py "x=1" in
  fst (standardize_code_pylint demo_llm demo_exc_str code demo_report w)
    = Ret [] /\
  fst (standardize_code_black demo_llm demo_exc_str code w) = Ret [] /\
  fst (standardize_code_lintr demo_llm demo_exc_str code demo_report w)
    = Ret [] /\
  fst (summarize_code demo_llm demo_exc_str code (py "Python") w) = Ret [] /\
  fst (translate_python_to_r demo_llm demo_exc_str code w) = Ret [] /\
  fst (translate_r_to_python demo_llm demo_exc_str code w) = Ret [].
Proof.
  intros w code.
  apply (prompt_functions_empty_on_failure demo_llm demo_exc_str code
           demo_report (py "Python") w
           (ClientError (py "503 service unavailable"))).
  - intros prompt. exists (env (machine w)). reflexivity.
  - reflexivity.
Defined.

Local Abbreviation translate_input l :=
  {| action_choice := Translate;
     language_choice := l;
     standardizer_choice := Pylint;
     uploaded_file := None;
     translation_code := py "x = 1";
     button := true |}.

Lemma translate_touches_nothing_witness :
  let w := demo_world {[ py "a.py" := [Byte.x78] ]} [] true in
  let run := main demo_exec demo_llm demo_decode demo_encode
               demo_sys_executable demo_exc_str (translate_input R) w in
  files (machine (snd run)) = files (machine w) /\
  spawned (snd run) = [] /\
  written (snd run) = [] /\
  prompts (snd run) = [r_to_python_prompt (py "x = 1")].
Proof.
  intros w run.
  apply (translate_touches_nothing demo_exec demo_llm demo_decode demo_encode
           demo_sys_executable demo_exc_str (translate_input R) w).
  reflexivity.
Defined.

Lemma translate_failure_shows_empty_witness :
  let w := demo_world ∅ [] false in
  let run := main demo_exec demo_llm demo_decode demo_encode
               demo_sys_executable demo_exc_str (translate_input Python) w in
  fst run = Ret tt /\
  exists before heading label,
    ui (snd run)
    = ui w ++ before ++
      [Error (py "Error calling Gemini LLM: 503 service unavailable");
       Subheader heading; TextArea label []].
Proof.
  intros w run.
  apply (translate_failure_shows_empty demo_exec demo_llm demo_decode
           demo_encode demo_sys_executable demo_exc_str
           (translate_input Python) w
           (ClientError (py "503 service unavailable")) (env (machine w)));
    reflexivity.
Defined.

Lemma undecodable_upload_stops_witness :
  let w := demo_world ∅ [py "pylint"] true in
  let i := {| action_choice := Standardize;
              language_choice := Python;
              standardizer_choice := Pylint;
              uploaded_file := Some (py "a.py", [Byte.xff; Byte.xfe]);
              translation_code := [];
              button := false |} in
  let run := main demo_exec demo_llm ascii_decode demo_encode
               demo_sys_executable demo_exc_str i w in
  fst run = Raise UnicodeDecodeError /\
  files (machine (snd run)) = <[py "a.py" := [Byte.xff; Byte.xfe]]> ∅ /\
  prompts (snd run) = [] /\
  spawned (snd run) = [].
Proof.
  intros w i run.
  apply (undecodable_upload_stops demo_exec demo_llm ascii_decode demo_encode
           demo_sys_executable demo_exc_str i (py "a.py")
           [Byte.xff; Byte.xfe] w);
    reflexivity.
Defined.

Lemma main_black_copies_formatted_witness :
  let w := demo_world {[ py "a.py" := [Byte.x78; Byte.x3d; Byte.x31] ]}
             [py "black"] true in
  let w' := snd (main_black demo_exec demo_decode demo_encode
                   demo_sys_executable (py "a.py") w) in
  exists formatted text copy,
    files (machine w') !! py "a.py" = Some formatted /\
    demo_decode formatted = Some text /\
    demo_encode text = Some copy /\
    files (machine w') !! py "standardized_a.py" = Some copy.
Proof.
  intros w w'.
  apply (main_black_copies_formatted demo_exec demo_decode demo_encode
           demo_sys_executable (py "a.py") w w').
  vm_compute. reflexivity.
Defined.

Lemma main_lintr_writes_empty_on_failure_witness :
  let w := demo_world ∅ [py "Rscript"; py "lintr"] true in
  let w' := snd (main_lintr demo_exec down_llm demo_encode demo_exc_str
                   (py "a.R") (py "x = 1") w) in
  exists data,
    demo_encode [] = Some data /\
    files (machine w') !! py "standardized_a.R" = Some data.
Proof.
  intros w w'.
  apply (main_lintr_writes_empty_on_failure demo_exec down_llm demo_encode
           demo_exc_str (py "a.R") (py "x = 1") w w'
           (ClientError (py "503 service unavailable"))).
  - intros prompt e0. exists e0. reflexivity.
  - reflexivity.
  - vm_compute. reflexivity.
Defined.

Lemma main_pylint_sends_report_witness :
  let w := demo_world ∅ [py "pylint"] true in
  prompts (snd (main_pylint demo_exec demo_llm demo_encode
                  demo_sys_executable demo_exc_str
                  (py "a.py") (py "x=1") w))
  = [pylint_prompt (py "x=1") demo_report].
Proof.
  intros w.
  apply (main_pylint_sends_report demo_exec demo_llm demo_encode
           demo_sys_executable demo_exc_str (py "a.py") (py "x=1")
           demo_report w
           (snd (analyze_code_pylint demo_exec demo_sys_executable
                   (py "a.py") w))).
  vm_compute. reflexivity.
Defined.
